(** * build-tail.py: build an APK, version it, send it over Tailscale

    A shallow embedding of [example/build-tail.py] and the proofs of its
    specification.  The script is a linear pipeline of calls into the
    operating system (argument parsing, file-system queries, sub-processes,
    the clock).  Those collaborators are modelled by a small world:

    - the file system is a finite list of regular files, in the order in
      which the operating system enumerates them;
    - the sub-processes, the clock and two formatting routines of the Python
      runtime are supplied by an environment [Env], over which every theorem
      quantifies;
    - every call of the script into its collaborators is recorded in a
      trace of events, next to the file system it leaves behind.

    Python exceptions, [SystemExit] included, are the error component of the
    monad [M] in which the functions of the script are written. *)

From Stdlib Require Import ZArith Ascii String Lia.
From stdpp Require Import base option list strings sets.

Local Open Scope Z_scope.
Local Open Scope nat_scope.

(** ** Strings *)

Module Str.

(** [sep.join(ls)] *)
Definition join (sep : string) (ls : list string) : string :=
  String.concat sep ls.

(** [c in s] for a single character [c] *)
Fixpoint mem (c : ascii) (s : string) : bool :=
  match s with
  | EmptyString => false
  | String d s' => Ascii.eqb c d || mem c s'
  end.

(** [s.startswith(c)] for a single character [c] *)
Definition starts_with (c : ascii) (s : string) : bool :=
  match s with
  | EmptyString => false
  | String d _ => Ascii.eqb c d
  end.

(** [s.split(sep)] for a single character [sep]: never empty, and
    [join sep (split sep s) = s]. *)
Fixpoint split (sep : ascii) (s : string) : list string :=
  match s with
  | EmptyString => [EmptyString]
  | String c s' =>
      if Ascii.eqb c sep then EmptyString :: split sep s'
      else match split sep s' with
           | [] => [String c EmptyString]
           | w :: ws => String c w :: ws
           end
  end.

(** [s.rfind(c)], counting positions from [i]; [None] is Python's [-1]. *)
Fixpoint rfind (c : ascii) (s : string) (i : nat) : option nat :=
  match s with
  | EmptyString => None
  | String d s' =>
      match rfind c s' (S i) with
      | Some j => Some j
      | None => if Ascii.eqb c d then Some i else None
      end
  end.

(** [s[:i]] and [s[i:]] *)
Definition take (i : nat) (s : string) : string := String.substring 0 i s.
Definition drop (i : nat) (s : string) : string :=
  String.substring i (String.length s - i) s.

(** Truthiness of a string: [bool(s)] *)
Definition nonempty (s : string) : bool :=
  match s with EmptyString => false | String _ _ => true end.

End Str.

(** ** Paths: [pathlib.PurePosixPath]

    The script runs the POSIX flavour of [pathlib]: a path is a root
    (nothing, one slash, or exactly two slashes) and the list of its
    components, without empty and [.] components. *)

Module PurePath.

Record t := mk { root : string; parts : list string }.

Definition parse_root (s : string) : string :=
  match s with
  | String "/" (String "/" rest) =>
      if Str.starts_with "/" rest then "/" else "//"
  | String "/" _ => "/"
  | _ => ""
  end.

(** [Path(s)] *)
Definition parse (s : string) : t :=
  {| root := parse_root s;
     parts := filter (λ x, x ≠ "" ∧ x ≠ ".") (Str.split "/" s) |}.

(** [str(p)] *)
Definition to_string (p : t) : string :=
  match root p, parts p with
  | EmptyString, [] => "."
  | r, ps => r +:+ Str.join "/" ps
  end.

(** [p.name] *)
Definition name (p : t) : string := List.last (parts p) "".

(** [p.parent] *)
Definition parent (p : t) : t :=
  {| root := root p; parts := removelast (parts p) |}.

(** The position of the dot that starts the suffix of a file name:
    [i = name.rfind('.')] when [0 < i < len(name) - 1]. *)
Definition suffix_index (nm : string) : option nat :=
  match Str.rfind "." nm 0 with
  | Some i => if (0 <? i) && (i <? String.length nm - 1) then Some i else None
  | None => None
  end.

(** [p.suffix] *)
Definition suffix (p : t) : string :=
  match suffix_index (name p) with
  | Some i => Str.drop i (name p)
  | None => ""
  end.

(** [p.stem] *)
Definition stem (p : t) : string :=
  match suffix_index (name p) with
  | Some i => Str.take i (name p)
  | None => name p
  end.

(** [p / s] *)
Definition joinpath (p : t) (s : string) : t :=
  let q := parse s in
  if Str.nonempty (root q) then q
  else {| root := root p; parts := parts p ++ parts q |}.

End PurePath.

(** [os.path.basename(p)]: what follows the last slash. *)
Definition os_path_basename (p : string) : string :=
  List.last (Str.split "/" p) "".

(** ** The file system

    Regular files only, each with its path relative to the working
    directory and its content, in the order in which the operating system
    enumerates them.  The first binding of a path is the file.  Directories
    are implicit: they are the prefixes of the paths of the files. *)

Definition filesystem := list (string * string).

Fixpoint fs_lookup (fs : filesystem) (p : string) : option string :=
  match fs with
  | [] => None
  | (q, c) :: fs' => if String.eqb q p then Some c else fs_lookup fs' p
  end.

Definition fs_exists (fs : filesystem) (p : string) : bool :=
  match fs_lookup fs p with Some _ => true | None => false end.

Definition fs_remove (p : string) (fs : list (string * string)) : filesystem :=
  filter (λ e, e.1 ≠ p) fs.

(** [os.rename(src, dst)] on POSIX: the file takes the new name, and a file
    that had that name is replaced. *)
Definition fs_rename (src dst : string) (fs : filesystem) : option filesystem :=
  match fs_lookup fs src with
  | None => None
  | Some c => Some (fs_remove dst (fs_remove src fs) ++ [(dst, c)])
  end.

(** ** [fnmatch] and [glob]

    [fnmatch.fnmatchcase(name, pat)] for patterns made of literal
    characters, [*] and [?] (the patterns of the script have no bracket
    expression). *)
Fixpoint fnmatch (pat : string) : string → bool :=
  match pat with
  | EmptyString => λ nm, negb (Str.nonempty nm)
  | String c pat' =>
      if Ascii.eqb c "*" then
        fix star (nm : string) : bool :=
          fnmatch pat' nm
          || match nm with
             | EmptyString => false
             | String _ nm' => star nm'
             end
      else if Ascii.eqb c "?" then
        λ nm, match nm with
              | EmptyString => false
              | String _ nm' => fnmatch pat' nm'
              end
      else
        λ nm, match nm with
              | EmptyString => false
              | String d nm' => Ascii.eqb c d && fnmatch pat' nm'
              end
  end.

(** A pattern without wildcard. *)
Definition no_wildcard (pat : string) : bool :=
  negb (Str.mem "*" pat) && negb (Str.mem "?" pat).

(** One component of a path against one component of a pattern: [glob]
    keeps the names that start with a dot away from a pattern that does
    not. *)
Definition glob_component (pat nm : string) : bool :=
  (negb (Str.starts_with "." nm) || Str.starts_with "." pat) && fnmatch pat nm.

Fixpoint glob_components (pats nms : list string) : bool :=
  match pats, nms with
  | [], [] => true
  | pat :: pats', nm :: nms' => glob_component pat nm && glob_components pats' nms'
  | _, _ => false
  end.

Definition glob_match (pattern path : string) : bool :=
  glob_components (Str.split "/" pattern) (Str.split "/" path).

(** [glob.glob(pattern)], not recursive: the files whose path matches the
    pattern component by component, in enumeration order. *)
Definition fs_glob (fs : filesystem) (pattern : string) : list string :=
  filter (λ p, glob_match pattern p = true) (fs.*1).

(** ** The clock: [datetime.datetime] *)

Record datetime := mkdatetime {
  year : Z; month : Z; day : Z;
  hour : Z; minute : Z; second : Z; microsecond : Z
}.

Local Open Scope Z_scope.

Definition is_leap (y : Z) : bool :=
  (y mod 4 =? 0) && (negb (y mod 100 =? 0) || (y mod 400 =? 0)).

Definition days_in_month (y m : Z) : Z :=
  match m with
  | 2 => if is_leap y then 29 else 28
  | 4 | 6 | 9 | 11 => 30
  | _ => 31
  end.

(** The checks of the [datetime] constructor. *)
Definition valid_datetime (d : datetime) : Prop :=
  1 ≤ year d ≤ 9999 ∧ 1 ≤ month d ≤ 12
  ∧ 1 ≤ day d ≤ days_in_month (year d) (month d)
  ∧ 0 ≤ hour d < 24 ∧ 0 ≤ minute d < 60 ∧ 0 ≤ second d < 60
  ∧ 0 ≤ microsecond d < 1000000.

(** Days before the first of January of year [y], and before the first of
    month [m] of year [y] ([datetime.toordinal]). *)
Definition days_before_year (y : Z) : Z :=
  let y' := y - 1 in y' * 365 + y' / 4 - y' / 100 + y' / 400.

Definition days_before_month (y m : Z) : Z :=
  foldr Z.add 0 (days_in_month y <$> (Z.of_nat <$> seq 1 (Z.to_nat (m - 1)))).

Definition toordinal (d : datetime) : Z :=
  days_before_year (year d) + days_before_month (year d) (month d) + day d.

(** The reading as a number of microseconds on the clock's own scale. *)
Definition to_microseconds (d : datetime) : Z :=
  (toordinal d * 86400 + hour d * 3600 + minute d * 60 + second d) * 1000000
  + microsecond d.

Definition digit (n : Z) : ascii := ascii_of_N (Z.to_N (48 + n mod 10)).

(** [%02d] and [%04d] *)
Definition pad2 (n : Z) : string :=
  String (digit (n / 10)) (String (digit n) "").
Definition pad4 (n : Z) : string :=
  String (digit (n / 1000)) (String (digit (n / 100)) (pad2 n)).

(** [d.strftime("%Y%m%d_%H%M%S")] *)
Definition strftime_Ymd_HMS (d : datetime) : string :=
  pad4 (year d) +:+ pad2 (month d) +:+ pad2 (day d) +:+ "_"
  +:+ pad2 (hour d) +:+ pad2 (minute d) +:+ pad2 (second d).

Local Close Scope Z_scope.

(** ** Sub-processes, events and the world *)

(** What [subprocess.run(..., capture_output=True, text=True)] captures. *)
Record CompletedProcess := mkproc {
  returncode : Z; stdout : string; stderr : string
}.

Inductive event :=
  | EvPrint (line : string)                 (* print(line) *)
  | EvUsage (message : string)              (* argparse: usage and error on stderr *)
  | EvHelp                                  (* argparse: the help message on stdout *)
  | EvOsPathExists (p : string) (b : bool)  (* os.path.exists(p) *)
  | EvSpawn (cmd : list string) (r : option CompletedProcess)  (* subprocess.run(cmd) *)
  | EvPathExists (p : string) (b : bool)    (* Path(p).exists() *)
  | EvGlob (pattern : string) (files : list string)            (* glob.glob(pattern) *)
  | EvGetsize (p : string) (size : nat)     (* os.path.getsize(p) *)
  | EvNow (d : datetime)                    (* datetime.datetime.now() *)
  | EvMove (src dst : string).              (* shutil.move(src, dst) *)

Record World := mkworld { fs : filesystem; trace : list event }.

Definition init_world (fs0 : filesystem) : World := {| fs := fs0; trace := [] |}.

(** The collaborators that the script does not control.
    - [spawn history cmd fs]: the command [cmd], started after the events
      [history] on the file system [fs], either cannot be started ([None])
      or runs to its end, with what it wrote and the file system it leaves;
    - [now history]: the reading of the local clock at that point;
    - [str_CalledProcessError cmd rc]: [str(e)] of the exception that
      [subprocess.run(cmd, check=True)] raises on exit status [rc];
    - [fmt_megabytes n]: [f"{n / (1024 * 1024):.1f}"], a floating-point
      rendering. *)
Record Env := mkenv {
  spawn : list event → list string → filesystem → option (CompletedProcess * filesystem);
  now : list event → datetime;
  str_CalledProcessError : list string → Z → string;
  fmt_megabytes : nat → string
}.

(** ** Exceptions and the monad of the script *)

Inductive exn :=
  | SystemExit (code : Z)
  | CalledProcessError (cmd : list string) (rc : Z) (out err : string)
  | OSError (filename : string).

Inductive result (A : Type) :=
  | Ok (a : A)
  | Raised (e : exn).
Arguments Ok {A} a.
Arguments Raised {A} e.

Definition M (A : Type) : Type := World → result A * World.

#[global] Instance M_ret : MRet M := λ A a w, (Ok a, w).
#[global] Instance M_bind : MBind M := λ A B f m w,
  match m w with
  | (Ok a, w') => f a w'
  | (Raised e, w') => (Raised e, w')
  end.

Definition raise {A} (e : exn) : M A := λ w, (Raised e, w).

(** [try: body except <the exceptions that handler accepts>: ...] *)
Definition try_except {A} (body : M A) (handler : exn → option (M A)) : M A :=
  λ w, match body w with
       | (Ok a, w') => (Ok a, w')
       | (Raised e, w') =>
           match handler e with
           | Some h => h w'
           | None => (Raised e, w')
           end
       end.

(** The exit status of the interpreter: [0] after a normal end, the code of
    an uncaught [SystemExit], [1] after any other uncaught exception. *)
Definition exit_status {A} (r : result A) : Z :=
  match r with
  | Ok _ => 0
  | Raised (SystemExit code) => code
  | Raised _ => 1
  end%Z.

Definition emit (e : event) : M unit :=
  λ w, (Ok tt, {| fs := fs w; trace := trace w ++ [e] |}).

Definition print (line : string) : M unit := emit (EvPrint line).

(** [sys.exit(code)] *)
Definition sys_exit {A} (code : Z) : M A := raise (SystemExit code).

Definition os_path_exists (p : string) : M bool :=
  λ w, let b := fs_exists (fs w) p in
       (Ok b, {| fs := fs w; trace := trace w ++ [EvOsPathExists p b] |}).

Definition Path_exists (p : PurePath.t) : M bool :=
  λ w, let s := PurePath.to_string p in
       let b := fs_exists (fs w) s in
       (Ok b, {| fs := fs w; trace := trace w ++ [EvPathExists s b] |}).

Definition glob_glob (pattern : string) : M (list string) :=
  λ w, let files := fs_glob (fs w) pattern in
       (Ok files, {| fs := fs w; trace := trace w ++ [EvGlob pattern files] |}).

Definition os_path_getsize (p : string) : M nat :=
  λ w, match fs_lookup (fs w) p with
       | Some c => (Ok (String.length c),
                    {| fs := fs w; trace := trace w ++ [EvGetsize p (String.length c)] |})
       | None => (Raised (OSError p), w)
       end.

(** [shutil.move(src, dst)] between two file names on one file system: the
    [os.rename] of the file.  (Onto an existing directory [shutil.move]
    moves the file into it; the model has no directories of that kind.) *)
Definition shutil_move (src dst : string) : M unit :=
  λ w, match fs_rename src dst (fs w) with
       | Some fs' => (Ok tt, {| fs := fs'; trace := trace w ++ [EvMove src dst] |})
       | None => (Raised (OSError src), w)
       end.

(** ** The script *)

(** Configure your target Tailscale device name here *)
Definition TARGET_DEVICE_NAME : string := "asus".

(** An argument of the command line, as the parser of [main] reads it:
    - [FlagDebug], [FlagRelease]: the two [store_true] flags of the group;
    - [FlagHelp]: [-h] or [--help], which [argparse] adds to every parser;
    - [FlagValued name value]: a flag written with a value, as in
      [--debug=1]; no flag of this parser takes one;
    - [Unrecognized token]: any other argument, an option that the parser
      does not know or a positional.
    Which strings [argparse] reads as which argument (the abbreviations of
    a flag, what follows [--]) is its lexing and varies with its version;
    the model starts from the arguments as read.  [Namespace] is what
    [parse_args] returns. *)
Inductive flag :=
  | FlagDebug
  | FlagRelease
  | FlagHelp
  | FlagValued (name value : string)
  | Unrecognized (token : string).

#[global] Instance flag_eq_dec : EqDecision flag.
Proof. solve_decision. Defined.

Record Namespace := mknamespace { debug : bool; release : bool }.

Definition nl : string := String (ascii_of_nat 10) EmptyString.
Definition dquote : string := String (ascii_of_nat 34) EmptyString.

(** The closing message of [main], a multi-line f-string. *)
Definition success_summary (device filename : string) : string :=
  nl +:+ "🎉 Build and transfer complete!" +:+ nl
  +:+ nl
  +:+ "📱 On your " +:+ device +:+ " device:" +:+ nl
  +:+ "   1. Go to the Downloads folder" +:+ nl
  +:+ "   2. Install " +:+ filename +:+ nl
  +:+ "   3. Enable " +:+ dquote +:+ "Install from unknown sources" +:+ dquote
  +:+ " if needed" +:+ nl.

Section Script.

Context (env : Env).

Definition datetime_now : M datetime :=
  λ w, let d := now env (trace w) in
       (Ok d, {| fs := fs w; trace := trace w ++ [EvNow d] |}).

(** [subprocess.run(cmd, check=True, capture_output=True, text=True)] *)
Definition subprocess_run (cmd : list string) : M CompletedProcess :=
  λ w, match spawn env (trace w) cmd (fs w) with
       | None =>
           (Raised (OSError (List.hd "" cmd)),
            {| fs := fs w; trace := trace w ++ [EvSpawn cmd None] |})
       | Some (r, fs') =>
           let w' := {| fs := fs'; trace := trace w ++ [EvSpawn cmd (Some r)] |} in
           if (returncode r =? 0)%Z then (Ok r, w')
           else (Raised (CalledProcessError cmd (returncode r) (stdout r) (stderr r)), w')
       end.

(** *** [run_command] *)

Definition run_command (cmd : list string) (description : string)
  : M CompletedProcess :=
  print ("🔄 " +:+ description);;
  print ("Running: " +:+ Str.join " " cmd);;
  try_except
    (result ← subprocess_run cmd;
     (if Str.nonempty (stdout result) then print (stdout result) else mret tt);;
     mret result)
    (λ e, match e with
          | CalledProcessError c rc out err =>
              Some
                (print ("❌ Error " +:+ description +:+ ": "
                        +:+ str_CalledProcessError env c rc);;
                 (if Str.nonempty out then print ("STDOUT: " +:+ out) else mret tt);;
                 (if Str.nonempty err then print ("STDERR: " +:+ err) else mret tt);;
                 sys_exit 1)
          | _ => None
          end).

(** *** [find_apk_file] *)

(** The loop over [alt_patterns], left at the first pattern with a match. *)
Fixpoint first_glob (alt_patterns : list string) : M (option string) :=
  match alt_patterns with
  | [] => mret None
  | pattern :: rest =>
      files ← glob_glob pattern;
      match files with
      | f :: _ => mret (Some f)
      | [] => first_glob rest
      end
  end.

Definition exact_pattern (build_type : string) : string :=
  if String.eqb build_type "debug"
  then "build/app/outputs/flutter-apk/app-debug.apk"
  else "build/app/outputs/flutter-apk/app-release.apk".

Definition alt_patterns (build_type : string) : list string :=
  [ "build/app/outputs/flutter-apk/*" +:+ build_type +:+ "*.apk";
    "build/app/outputs/apk/" +:+ build_type +:+ "/*.apk" ].

(** The ordered candidate list of a variant on a file system: the exact
    path, then what each alternative pattern expands to, in order. *)
Definition candidates (build_type : string) (fs0 : filesystem) : list string :=
  exact_pattern build_type :: mjoin (fs_glob fs0 <$> alt_patterns build_type).

Definition find_apk_file (build_type : string) : M (option string) :=
  let pattern := exact_pattern build_type in
  let apk_path := PurePath.parse pattern in
  found ← Path_exists apk_path;
  if found : bool then mret (Some (PurePath.to_string apk_path))
  else first_glob (alt_patterns build_type).

(** *** [rename_apk_with_version] *)

Definition new_filename_of (apk_path : string) (d : datetime) : string :=
  let original_path := PurePath.parse apk_path in
  PurePath.stem original_path +:+ "_" +:+ strftime_Ymd_HMS d
  +:+ PurePath.suffix original_path.

Definition rename_apk_with_version (apk_path build_type : string) : M string :=
  d ← datetime_now;
  let original_path := PurePath.parse apk_path in
  let directory := PurePath.parent original_path in
  let new_filename := new_filename_of apk_path d in
  let new_path := PurePath.joinpath directory new_filename in
  shutil_move (PurePath.to_string original_path) (PurePath.to_string new_path);;
  print ("🏷️  APK renamed: " +:+ PurePath.name original_path
         +:+ " -> " +:+ new_filename);;
  mret (PurePath.to_string new_path).

(** *** [send_apk_via_tailscale] *)

Definition ts_cmd (apk_path device_name : string) : list string :=
  ["tailscale"; "file"; "cp"; apk_path; device_name +:+ ":"].

Definition send_apk_via_tailscale (apk_path device_name : string) : M unit :=
  let filename := os_path_basename apk_path in
  run_command (ts_cmd apk_path device_name)
    ("Sending " +:+ filename +:+ " to " +:+ device_name +:+ " via Tailscale");;
  print "✅ APK sent successfully!";;
  print ("📱 Check the Downloads folder on " +:+ device_name
         +:+ " for " +:+ filename).

(** *** [main] *)

(** What the parser makes of a command line. *)
Inductive parsed :=
  | Accepted (args : Namespace)
  | UsageError (message : string)
  | HelpRequested.

(** The parser that [main] builds: the help flag of [argparse] and one
    required group of two mutually exclusive [store_true] flags.  It takes
    the arguments from left to right.  A variant flag that comes after the
    other one is an error, and so is a flag with a value; the help flag
    stops the parser; an argument that the parser does not know is kept
    aside.  At the end of the command line, a group that no flag has set
    is an error, and then so are the arguments kept aside. *)
Fixpoint parse_known_args (argv : list flag) (args : Namespace) (extras : list string)
  : parsed :=
  match argv with
  | [] =>
      if negb (debug args) && negb (release args) then
        UsageError "one of the arguments --debug --release is required"
      else
        match extras with
        | [] => Accepted args
        | _ => UsageError ("unrecognized arguments: " +:+ Str.join " " extras)
        end
  | FlagDebug :: rest =>
      if release args then
        UsageError "argument --debug: not allowed with argument --release"
      else parse_known_args rest {| debug := true; release := release args |} extras
  | FlagRelease :: rest =>
      if debug args then
        UsageError "argument --release: not allowed with argument --debug"
      else parse_known_args rest {| debug := debug args; release := true |} extras
  | FlagHelp :: _ => HelpRequested
  | FlagValued name value :: _ =>
      UsageError ("argument " +:+ name +:+ ": ignored explicit argument '"
                  +:+ value +:+ "'")
  | Unrecognized token :: rest => parse_known_args rest args (extras ++ [token])
  end.

(** [parser.parse_args()]: on an error [argparse] writes the usage and
    the message to standard error and leaves with status 2; on the help
    flag it prints the help and leaves with status 0. *)
Definition parse_args (argv : list flag) : M Namespace :=
  match parse_known_args argv {| debug := false; release := false |} [] with
  | Accepted args => mret args
  | UsageError message => emit (EvUsage message);; sys_exit 2
  | HelpRequested => emit EvHelp;; sys_exit 0
  end.

(** Lines 117 to 120 of [main]: the check for the project marker. *)
Definition check_project_directory : M unit :=
  found ← os_path_exists "pubspec.yaml";
  if negb (found : bool) then
    print "❌ Not in Flutter project directory (pubspec.yaml not found)";;
    sys_exit 1
  else mret tt.

Definition clean_cmd : list string := ["flutter"; "clean"].
Definition pub_get_cmd : list string := ["flutter"; "pub"; "get"].
Definition build_cmd (build_type : string) : list string :=
  if String.eqb build_type "debug"
  then ["flutter"; "build"; "apk"; "--debug"; "--target-platform"; "android-arm64"]
  else ["flutter"; "build"; "apk"; "--release"; "--target-platform"; "android-arm64"].

(** Lines 122 to 134 of [main]: clean, fetch the dependencies, build. *)
Definition build_stage (build_type : string) : M unit :=
  run_command clean_cmd "Cleaning previous builds";;
  run_command pub_get_cmd "Getting dependencies";;
  run_command (build_cmd build_type) ("Building " +:+ build_type +:+ " APK");;
  mret tt.

(** Lines 105 to 134 of [main]: the command line, the project check and
    the build; returns the build type. *)
Definition build_phase (argv : list flag) : M string :=
  args ← parse_args argv;
  let build_type := if debug args then "debug" else "release" in
  print ("🚀 Starting " +:+ build_type +:+ " build process...");;
  check_project_directory;;
  build_stage build_type;;
  mret build_type.

(** Lines 142 to 162 of [main]: report, version, transfer. *)
Definition deliver (build_type apk_path : string) : M unit :=
  print ("✅ APK built successfully: " +:+ apk_path);;
  file_size ← os_path_getsize apk_path;
  print ("📦 APK size: " +:+ fmt_megabytes env file_size +:+ " MB");;
  versioned_apk_path ← rename_apk_with_version apk_path build_type;
  print ("📡 Preparing to send APK to '" +:+ TARGET_DEVICE_NAME
         +:+ "' via Tailscale...");;
  send_apk_via_tailscale versioned_apk_path TARGET_DEVICE_NAME;;
  print (success_summary TARGET_DEVICE_NAME
           (os_path_basename versioned_apk_path)).

(** [if not apk_path]: [None] and the empty string are both false. *)
Definition falsy (found : option string) : bool :=
  match found with
  | Some apk_path => negb (Str.nonempty apk_path)
  | None => true
  end.

Definition main (argv : list flag) : M unit :=
  build_type ← build_phase argv;
  found ← find_apk_file build_type;
  if falsy found then
    print ("❌ Could not find " +:+ build_type +:+ " APK file");;
    sys_exit 1
  else
    deliver build_type (default "" found).

(** *** What the command runner prints *)

Definition announce (description : string) (cmd : list string) : list event :=
  [EvPrint ("🔄 " +:+ description);
   EvPrint ("Running: " +:+ Str.join " " cmd)].

Definition echo (r : CompletedProcess) : list event :=
  if Str.nonempty (stdout r) then [EvPrint (stdout r)] else [].

Definition diagnostic (description : string) (cmd : list string)
    (r : CompletedProcess) : list event :=
  [EvPrint ("❌ Error " +:+ description +:+ ": "
            +:+ str_CalledProcessError env cmd (returncode r))]
  ++ (if Str.nonempty (stdout r) then [EvPrint ("STDOUT: " +:+ stdout r)] else [])
  ++ (if Str.nonempty (stderr r) then [EvPrint ("STDERR: " +:+ stderr r)] else []).

End Script.

(** ** The shape of a package path

    The directories in which discovery looks, as lists of components, and
    the name of a package: a stem that is not empty, has no slash and does
    not start with a dot, followed by [.apk]. *)

Definition output_dirs : list (list string) :=
  [ ["build"; "app"; "outputs"; "flutter-apk"];
    ["build"; "app"; "outputs"; "apk"; "debug"];
    ["build"; "app"; "outputs"; "apk"; "release"] ].

Definition package_stem (stem : string) : Prop :=
  stem ≠ "" ∧ Str.mem "/" stem = false ∧ Str.starts_with "." stem = false.

Definition package_path (p : string) (dir : list string) (stem : string) : Prop :=
  dir ∈ output_dirs ∧ package_stem stem
  ∧ Str.split "/" p = dir ++ [stem +:+ ".apk"].

Definition is_digit (c : ascii) : bool :=
  (48 <=? nat_of_ascii c) && (nat_of_ascii c <=? 57).

Fixpoint all_digits (s : string) : bool :=
  match s with
  | EmptyString => true
  | String c s' => is_digit c && all_digits s'
  end.

(** Eight digits, an underscore, six digits. *)
Definition timestamp_shaped (s : string) : Prop :=
  ∃ date time,
    s = date +:+ "_" +:+ time
    ∧ String.length date = 8 ∧ all_digits date = true
    ∧ String.length time = 6 ∧ all_digits time = true.

(** ** Observations on traces *)

Definition is_print (e : event) : bool :=
  match e with EvPrint _ => true | _ => false end.

Definition is_spawn (e : event) : bool :=
  match e with EvSpawn _ _ => true | _ => false end.

(** The queries of artifact discovery. *)
Definition is_discovery (e : event) : bool :=
  match e with EvPathExists _ _ | EvGlob _ _ => true | _ => false end.

(** An invocation of the transfer command. *)
Definition is_transfer (e : event) : bool :=
  match e with EvSpawn ("tailscale" :: _) _ => true | _ => false end.

(** The steps that are to wait for the build: discovery and transfer. *)
Definition needs_build (e : event) : bool := is_discovery e || is_transfer e.

(** The commands started, in order, with what became of them. *)
Definition spawn_log (tr : list event) : list (list string * option CompletedProcess) :=
  omap (λ e, match e with EvSpawn cmd o => Some (cmd, o) | _ => None end) tr.

Definition spawned (tr : list event) : list (list string) := (spawn_log tr).*1.

(** A command that was started and ended with status zero. *)
Definition status_ok (o : option CompletedProcess) : bool :=
  match o with
  | Some r => (returncode r =? 0)%Z
  | None => false
  end.

(** A sequence of commands, cut after the first one that fails. *)
Fixpoint until_failure (log : list (list string * option CompletedProcess))
  : list (list string * option CompletedProcess) :=
  match log with
  | [] => []
  | (cmd, o) :: rest => (cmd, o) :: if status_ok o then until_failure rest else []
  end.

(** The text that the [print] calls of a trace leave on standard output. *)
Fixpoint printed (tr : list event) : string :=
  match tr with
  | [] => ""
  | EvPrint line :: tr' => line +:+ nl +:+ printed tr'
  | _ :: tr' => printed tr'
  end.

Definition contains (text part : string) : Prop :=
  ∃ before after, text = before +:+ part +:+ after.

#[global] Arguments run_command : simpl never.
#[global] Arguments find_apk_file : simpl never.
#[global] Arguments rename_apk_with_version : simpl never.
#[global] Arguments fs_exists : simpl never.
#[global] Arguments diagnostic : simpl never.
#[global] Arguments announce : simpl never.
#[global] Arguments echo : simpl never.
#[global] Arguments falsy : simpl never.
#[global] Arguments candidates : simpl never.
#[global] Arguments List.find : simpl never.
#[global] Typeclasses Opaque diagnostic echo announce.

(** ** Observations on the commands of a trace *)

(** [Q] holds of every command of [tr], given the events that came before
    it; [pre] is what came before [tr]. *)
Definition each_spawn (Q : list event → list string → option CompletedProcess → Prop)
    (pre tr : list event) : Prop :=
  ∀ before cmd o after,
    tr = before ++ EvSpawn cmd o :: after → Q (pre ++ before) cmd o.

(** The variant that a command line selects. *)
Definition selected (argv : list flag) : string :=
  if bool_decide (FlagDebug ∈ argv) then "debug" else "release".

(** A command line that the parser accepts: variant flags only, and one
    of the two, not both. *)
Definition well_formed (argv : list flag) : Prop :=
  Forall (λ a, a = FlagDebug ∨ a = FlagRelease) argv
  ∧ ((FlagDebug ∈ argv ∧ (FlagRelease ∉ argv)) ∨ ((FlagDebug ∉ argv) ∧ FlagRelease ∈ argv)).

(** The order of two clock readings, to the second: the fields are
    compared from the year down, as [datetime] compares them. *)
Definition then_compare (c rest : comparison) : comparison :=
  match c with Eq => rest | _ => c end.

Definition compare_seconds (d1 d2 : datetime) : comparison :=
  then_compare (year d1 ?= year d2)%Z
    (then_compare (month d1 ?= month d2)%Z
       (then_compare (day d1 ?= day d2)%Z
          (then_compare (hour d1 ?= hour d2)%Z
             (then_compare (minute d1 ?= minute d2)%Z
                (second d1 ?= second d2)%Z)))).

(** ** Sample worlds

    A build tool that leaves its package at the expected place, and
    commands that end with status zero unless [fails] says otherwise. *)

Module Sample.

Definition done : CompletedProcess :=
  {| returncode := 0; stdout := "done"; stderr := "" |}.

Definition failure : CompletedProcess :=
  {| returncode := 1; stdout := ""; stderr := "no such peer" |}.

Definition reading : datetime := mkdatetime 2026 11 4 9 5 7 123.

Definition project : filesystem := [("pubspec.yaml", "name: app")].

Definition package (build_type : string) : string * string :=
  ("build/app/outputs/flutter-apk/app-" +:+ build_type +:+ ".apk", "PK").

Definition effect (cmd : list string) (fs0 : filesystem) : filesystem :=
  match cmd with
  | ["flutter"; "build"; "apk"; "--debug"; _; _] => fs0 ++ [package "debug"]
  | ["flutter"; "build"; "apk"; "--release"; _; _] => fs0 ++ [package "release"]
  | _ => fs0
  end.

Definition env_with (fails : list string → bool) : Env :=
  {| spawn := λ _ cmd fs0,
       if fails cmd then Some (failure, fs0) else Some (done, effect cmd fs0);
     now := λ _, reading;
     str_CalledProcessError := λ _ _, "the command returned non-zero exit status 1.";
     fmt_megabytes := λ _, "0.0" |}.

Definition env_ok : Env := env_with (λ _, false).

(** Commands that end with status zero and write nothing. *)
Definition env_idle : Env :=
  {| spawn := λ _ _ fs0, Some (done, fs0);
     now := λ _, reading;
     str_CalledProcessError := λ _ _, "";
     fmt_megabytes := λ _, "0.0" |}.

(** No package at the exact path, one file for each alternative pattern. *)
Definition two_matches : filesystem :=
  [ ("pubspec.yaml", "name: app");
    ("build/app/outputs/apk/release/app.apk", "PK");
    ("build/app/outputs/flutter-apk/app-arm64-release.apk", "PK") ].

Definition env_transfer_fails : Env :=
  env_with (λ cmd, bool_decide (List.hd "" cmd = "tailscale")).

Definition env_build_fails : Env :=
  env_with (λ cmd, bool_decide (List.nth 1 cmd "" = "build")).

Definition env_clean_fails : Env :=
  env_with (λ cmd, bool_decide (List.nth 1 cmd "" = "clean")).

End Sample.

(** More sample worlds: a machine without the transfer tool, and projects
    that hold a release package already. *)
Module Scenario.

Definition env_no_tailscale : Env :=
  {| spawn := λ _ cmd fs0,
       if bool_decide (List.hd "" cmd = "tailscale") then None
       else Some (Sample.done, Sample.effect cmd fs0);
     now := λ _, Sample.reading;
     str_CalledProcessError := λ _ _, "";
     fmt_megabytes := λ _, "0.0" |}.

Definition built : filesystem := Sample.project ++ [Sample.package "release"].

(** The same project with the artifact that an earlier run of the second
    of [Sample.reading] has left. *)
Definition stale : filesystem :=
  built ++ [("build/app/outputs/flutter-apk/app-release_20261104_090507.apk",
             "PK of an earlier run")].

End Scenario.

(** * Proofs *)

(** ** Strings *)

Module StrFacts.

Lemma append_cons c s t : String c s +:+ t = String c (s +:+ t).
Proof. reflexivity. Qed.

Lemma append_nil_l s : "" +:+ s = s.
Proof. reflexivity. Qed.

Lemma append_assoc s t u : (s +:+ t) +:+ u = s +:+ t +:+ u.
Proof. induction s as [|c s IH]; [done|]. by rewrite !append_cons, IH. Qed.

Lemma length_append s t :
  String.length (s +:+ t) = String.length s + String.length t.
Proof. induction s as [|c s IH]; [done|]. rewrite append_cons. simpl. by rewrite IH. Qed.

Lemma append_inv_tail s t u : s +:+ u = t +:+ u → s = t.
Proof.
  revert t. induction s as [|c s IH]; intros [|d t] H.
  - done.
  - apply (f_equal String.length) in H.
    rewrite append_nil_l, append_cons in H. simpl in H.
    rewrite length_append in H. lia.
  - apply (f_equal String.length) in H.
    rewrite append_nil_l, append_cons in H. simpl in H.
    rewrite length_append in H. lia.
  - rewrite !append_cons in H. injection H as -> H. f_equal. by apply IH.
Qed.

Lemma mem_append c s t : Str.mem c (s +:+ t) = Str.mem c s || Str.mem c t.
Proof.
  induction s as [|d s IH]; [done|].
  rewrite append_cons. simpl. rewrite IH. by rewrite orb_assoc.
Qed.

(** *** [split] and [join] *)

Lemma split_not_nil sep s : Str.split sep s ≠ [].
Proof. destruct s as [|c s]; simpl; [done|]. repeat case_match; done. Qed.

Lemma split_no_sep sep s : Str.mem sep s = false → Str.split sep s = [s].
Proof.
  induction s as [|c s IH]; [done|]. simpl. intros [Hc Hs]%orb_false_iff.
  rewrite Ascii.eqb_sym, Hc, (IH Hs). done.
Qed.

Lemma split_append_sep sep s t :
  Str.mem sep s = false →
  Str.split sep (s +:+ String sep t) = s :: Str.split sep t.
Proof.
  induction s as [|c s IH].
  - intros _. rewrite append_nil_l. simpl. by rewrite Ascii.eqb_refl.
  - simpl. intros [Hc Hs]%orb_false_iff.
    rewrite Ascii.eqb_sym, Hc, (IH Hs). done.
Qed.

Lemma join_split sep s : Str.join (String sep "") (Str.split sep s) = s.
Proof.
  induction s as [|c s IH]; [done|]. simpl.
  pose proof (split_not_nil sep s) as Hnil.
  destruct (Ascii.eqb_spec c sep) as [->|Hne].
  - unfold Str.join in *. simpl.
    destruct (Str.split sep s) as [|w ws]; [done|].
    rewrite IH. done.
  - unfold Str.join in *.
    destruct (Str.split sep s) as [|w ws]; [done|].
    destruct ws as [|w' ws]; simpl in *.
    + by rewrite IH.
    + by rewrite <- IH.
Qed.

Lemma split_no_sep_in sep s :
  Forall (λ x, Str.mem sep x = false) (Str.split sep s).
Proof.
  induction s as [|c s IH]; simpl.
  - by constructor.
  - pose proof (split_not_nil sep s) as Hnil.
    destruct (Ascii.eqb_spec c sep) as [->|Hne].
    + by constructor.
    + destruct (Str.split sep s) as [|w ws]; [done|].
      inversion IH as [|? ? Hw Hws]; subst. constructor; [|done].
      simpl. rewrite Hw, orb_false_r. apply Ascii.eqb_neq. congruence.
Qed.

(** *** Slices *)

Lemma take_append s t : Str.take (String.length s) (s +:+ t) = s.
Proof.
  unfold Str.take. induction s as [|c s IH].
  - rewrite append_nil_l. by destruct t.
  - rewrite append_cons. simpl. by rewrite IH.
Qed.

Lemma substring_all s : String.substring 0 (String.length s) s = s.
Proof. induction s as [|c s IH]; [done|]. simpl. by rewrite IH. Qed.

Lemma substring_skip s t n :
  String.substring (String.length s) n (s +:+ t) = String.substring 0 n t.
Proof. induction s as [|c s IH]; [done|]. rewrite append_cons. simpl. apply IH. Qed.

Lemma drop_append s t : Str.drop (String.length s) (s +:+ t) = t.
Proof.
  unfold Str.drop. rewrite substring_skip, length_append.
  replace (String.length s + String.length t - String.length s)
    with (String.length t) by lia.
  apply substring_all.
Qed.

(** *** [rfind] *)

Lemma rfind_none c s i : Str.mem c s = false → Str.rfind c s i = None.
Proof.
  revert i. induction s as [|d s IH]; intros i; [done|]. simpl.
  intros [Hc Hs]%orb_false_iff. by rewrite (IH _ Hs), Hc.
Qed.

Lemma rfind_last c s t i :
  Str.mem c t = false →
  Str.rfind c (s +:+ String c t) i = Some (i + String.length s).
Proof.
  intros Ht. revert i. induction s as [|d s IH]; intros i.
  - rewrite append_nil_l. simpl. rewrite (rfind_none _ _ _ Ht), Ascii.eqb_refl.
    f_equal. lia.
  - rewrite append_cons. simpl. rewrite IH. f_equal. lia.
Qed.

End StrFacts.

Import StrFacts.

Ltac unfold_M :=
  unfold mbind, M_bind, mret, M_ret, print, emit, try_except, sys_exit, raise in *.

(** ** The file system and the functions of the script *)

Section FsFacts.
Lemma fs_exists_elem (fs0 : filesystem) p : p ∈ fs0.*1 → fs_exists fs0 p = true.
Proof.
  unfold fs_exists. induction fs0 as [|[q c] fs0 IH]; simpl.
  - by intros ?%elem_of_nil.
  - intros [->|Hin]%elem_of_cons.
    + by rewrite String.eqb_refl.
    + destruct (String.eqb q p); [done|]. by apply IH.
Qed.

Lemma fs_glob_exists (fs0 : filesystem) pattern p :
  p ∈ fs_glob fs0 pattern → fs_exists fs0 p = true.
Proof.
  unfold fs_glob. intros [_ Hin]%list_elem_of_filter. by apply fs_exists_elem.
Qed.

End FsFacts.

Lemma find_cons {A} (P : A → bool) x (l : list A) :
  List.find P (x :: l) = if P x then Some x else List.find P l.
Proof. reflexivity. Qed.

Lemma head_find_all {A} (P : A → bool) (l : list A) :
  Forall (λ x, P x = true) l → head l = List.find P l.
Proof.
  destruct 1 as [|x l Hx _]; [done|].
  by rewrite find_cons, Hx.
Qed.

Section ScriptFacts.
Context (env : Env).

Lemma run_command_eq cmd description w :
  run_command env cmd description w =
  let h := trace w ++ announce description cmd in
  match spawn env h cmd (fs w) with
  | None =>
      (Raised (OSError (List.hd "" cmd)),
       {| fs := fs w; trace := h ++ [EvSpawn cmd None] |})
  | Some (r, fs') =>
      if (returncode r =? 0)%Z
      then (Ok r, {| fs := fs'; trace := h ++ EvSpawn cmd (Some r) :: echo r |})
      else (Raised (SystemExit 1),
            {| fs := fs';
               trace := h ++ EvSpawn cmd (Some r) :: diagnostic env description cmd r |})
  end.
Proof.
  unfold run_command, announce, echo, diagnostic, subprocess_run. unfold_M. simpl.
  rewrite <- !app_assoc. simpl.
  destruct (spawn env _ cmd (fs w)) as [[r fs']|]; [|done].
  destruct (returncode r =? 0)%Z; simpl.
  - destruct (Str.nonempty (stdout r)); simpl; rewrite <- ?app_assoc; done.
  - destruct (Str.nonempty (stdout r)), (Str.nonempty (stderr r)); simpl;
      rewrite <- ?app_assoc; done.
Qed.

Lemma first_glob_eq pats w :
  ∃ tr, first_glob pats w
        = (Ok (head (mjoin (fs_glob (fs w) <$> pats))), {| fs := fs w; trace := trace w ++ tr |})
        ∧ Forall (λ e, is_discovery e = true) tr.
Proof.
  revert w. induction pats as [|pat pats IH]; intros w.
  - exists []. destruct w. simpl. unfold_M. by rewrite app_nil_r.
  - simpl. unfold_M. unfold glob_glob. simpl.
    destruct (fs_glob (fs w) pat) as [|f fl] eqn:Hg.
    + destruct (IH {| fs := fs w; trace := trace w ++ [EvGlob pat []] |}) as (tr & -> & Htr).
      exists (EvGlob pat [] :: tr). simpl. rewrite <- app_assoc. split; [done|].
      by constructor.
    + exists [EvGlob pat (f :: fl)]. split; [done|]. by repeat constructor.
Qed.

Lemma find_apk_file_eq bt w :
  bt = "debug" ∨ bt = "release" →
  ∃ tr, find_apk_file bt w
        = (Ok (List.find (fs_exists (fs w)) (candidates bt (fs w))),
           {| fs := fs w; trace := trace w ++ tr |})
        ∧ Forall (λ e, is_discovery e = true) tr.
Proof.
  intros Hbt. unfold find_apk_file, candidates. unfold_M. unfold Path_exists.
  assert (PurePath.to_string (PurePath.parse (exact_pattern bt)) = exact_pattern bt) as ->.
  { by destruct Hbt as [-> | ->]. }
  cbv beta zeta. destruct (fs_exists (fs w) (exact_pattern bt)) eqn:Hex.
  - eexists [_]. rewrite find_cons, Hex. split; [done|]. by repeat constructor.
  - destruct (first_glob_eq (alt_patterns bt)
      {| fs := fs w; trace := trace w ++ [EvPathExists (exact_pattern bt) false] |})
      as (tr & Heq & Htr).
    cbn [fs trace] in Heq. rewrite Heq.
    exists (EvPathExists (exact_pattern bt) false :: tr).
    rewrite <- app_assoc. split; [|by constructor].
    do 2 f_equal. rewrite find_cons, Hex.
    apply head_find_all, Forall_forall.
    intros p [l [Hp Hl]]%list_elem_of_join.
    apply list_elem_of_fmap in Hl as (pat & -> & _). by eapply fs_glob_exists.
Qed.

Lemma rename_apk_with_version_eq p bt w :
  rename_apk_with_version env p bt w =
  let d := now env (trace w) in
  let src := PurePath.to_string (PurePath.parse p) in
  let new_filename := new_filename_of p d in
  let dst := PurePath.to_string
               (PurePath.joinpath (PurePath.parent (PurePath.parse p)) new_filename) in
  match fs_rename src dst (fs w) with
  | Some fs' =>
      (Ok dst,
       {| fs := fs';
          trace := trace w ++
            [EvNow d; EvMove src dst;
             EvPrint ("🏷️  APK renamed: " +:+ PurePath.name (PurePath.parse p)
                      +:+ " -> " +:+ new_filename)] |})
  | None => (Raised (OSError src), {| fs := fs w; trace := trace w ++ [EvNow d] |})
  end.
Proof.
  unfold rename_apk_with_version, datetime_now, shutil_move. unfold_M.
  cbn [fs trace]. destruct (fs_rename _ _ (fs w)); [|done].
  cbn [fs trace]. by rewrite <- !app_assoc.
Qed.

Lemma find_apk_file_run bt w :
  bt = "debug" ∨ bt = "release" →
  ∃ found tr,
    find_apk_file bt w = (Ok found, {| fs := fs w; trace := trace w ++ tr |})
    ∧ Forall (λ e, is_discovery e = true) tr
    ∧ found = List.find (fs_exists (fs w)) (candidates bt (fs w)).
Proof.
  intros Hbt. destruct (find_apk_file_eq bt w Hbt) as (tr & Heq & Htr). eauto.
Qed.

Lemma rename_apk_with_version_run p bt w :
  ∃ d src dst line,
    d = now env (trace w)
    ∧ src = PurePath.to_string (PurePath.parse p)
    ∧ dst = PurePath.to_string
              (PurePath.joinpath (PurePath.parent (PurePath.parse p))
                 (new_filename_of p d))
    ∧ rename_apk_with_version env p bt w =
      match fs_rename src dst (fs w) with
      | Some fs' =>
          (Ok dst,
           {| fs := fs';
              trace := trace w ++ [EvNow d; EvMove src dst; EvPrint line] |})
      | None => (Raised (OSError src), {| fs := fs w; trace := trace w ++ [EvNow d] |})
      end.
Proof. do 4 eexists. split_and!; [done..|]. apply rename_apk_with_version_eq. Qed.

Lemma prints_echo r : Forall (λ e, is_print e = true) (echo r).
Proof. unfold echo. case_match; by repeat constructor. Qed.

Lemma prints_diagnostic d c r : Forall (λ e, is_print e = true) (diagnostic env d c r).
Proof. unfold diagnostic. repeat case_match; by repeat constructor. Qed.

Lemma prints_announce d c : Forall (λ e, is_print e = true) (announce d c).
Proof. by repeat constructor. Qed.

End ScriptFacts.

(** ** The parser *)

Lemma elem_of_cons_ne {A} (x y : A) (l : list A) : x ≠ y → x ∈ y :: l ↔ x ∈ l.
Proof.
  intros Hne. rewrite elem_of_cons. split; [|by right].
  by intros [Heq | Hin].
Qed.

Lemma parse_known_args_accepted argv args extras args' :
  parse_known_args argv args extras = Accepted args' →
  extras = []
  ∧ Forall (λ a, a = FlagDebug ∨ a = FlagRelease) argv
  ∧ debug args' = debug args || bool_decide (FlagDebug ∈ argv)
  ∧ release args' = release args || bool_decide (FlagRelease ∈ argv)
  ∧ (debug args && release args = false → debug args' && release args' = false)
  ∧ debug args' || release args' = true.
Proof.
  revert args extras. induction argv as [|a rest IH]; intros [d r] extras;
    cbn [parse_known_args debug release].
  - destruct d, r, extras; cbn; intros [= <-]; split_and!; done.
  - destruct a; try done.
    + destruct r; [done|]. intros (-> & Hrest & Hd & Hr & Hx & Hone)%IH.
      cbn [debug release orb] in *. split_and!.
      * done.
      * constructor; [by left | done].
      * rewrite Hd, bool_decide_eq_true_2 by apply list_elem_of_here.
        by rewrite orb_true_r.
      * rewrite Hr. apply bool_decide_ext. by rewrite elem_of_cons_ne.
      * intros _. by apply Hx.
      * done.
    + destruct d; [done|]. intros (-> & Hrest & Hd & Hr & Hx & Hone)%IH.
      cbn [debug release orb] in *. split_and!.
      * done.
      * constructor; [by right | done].
      * rewrite Hd. apply bool_decide_ext. by rewrite elem_of_cons_ne.
      * rewrite Hr, bool_decide_eq_true_2 by apply list_elem_of_here.
        by rewrite orb_true_r.
      * intros _. by apply Hx.
      * done.
    + intros (Hnil & _)%IH. by destruct extras.
Qed.

Lemma parse_known_args_help argv args extras :
  parse_known_args argv args extras = HelpRequested → FlagHelp ∈ argv.
Proof.
  revert args extras. induction argv as [|a rest IH]; intros [d r] extras;
    cbn [parse_known_args debug release].
  - by destruct d, r, extras.
  - destruct a; try done.
    + destruct r; [done|]. intros ?%IH. by apply list_elem_of_further.
    + destruct d; [done|]. intros ?%IH. by apply list_elem_of_further.
    + intros _. apply list_elem_of_here.
    + intros ?%IH. by apply list_elem_of_further.
Qed.

Lemma parse_known_args_variants argv args :
  Forall (λ a, a = FlagDebug ∨ a = FlagRelease) argv →
  (FlagDebug ∈ argv → release args = false) →
  (FlagRelease ∈ argv → debug args = false) →
  ¬ (FlagDebug ∈ argv ∧ FlagRelease ∈ argv) →
  (debug args || bool_decide (FlagDebug ∈ argv))
  || (release args || bool_decide (FlagRelease ∈ argv)) = true →
  parse_known_args argv args []
  = Accepted {| debug := debug args || bool_decide (FlagDebug ∈ argv);
                release := release args || bool_decide (FlagRelease ∈ argv) |}.
Proof.
  intros Hall. revert args.
  induction Hall as [|a rest Ha _ IH]; intros [d r] Hd Hr Hboth Hone;
    cbn [parse_known_args debug release] in *.
  - rewrite !bool_decide_eq_false_2, !orb_false_r in * by apply not_elem_of_nil.
    by destruct d, r.
  - destruct Ha as [-> | ->].
    + rewrite (Hd (list_elem_of_here _ _)) in *.
      rewrite (bool_decide_eq_true_2 (FlagDebug ∈ FlagDebug :: rest))
        by apply list_elem_of_here.
      rewrite (bool_decide_ext (FlagRelease ∈ FlagDebug :: rest) (FlagRelease ∈ rest))
        by (by rewrite elem_of_cons_ne).
      rewrite IH; cbn [debug release orb].
      * by rewrite orb_true_r.
      * done.
      * intros Hin. exfalso. apply Hboth.
        split; [apply list_elem_of_here | by apply list_elem_of_further].
      * intros [? ?]. apply Hboth.
        split; [apply list_elem_of_here | by apply list_elem_of_further].
      * done.
    + rewrite (Hr (list_elem_of_here _ _)) in *.
      rewrite (bool_decide_eq_true_2 (FlagRelease ∈ FlagRelease :: rest))
        by apply list_elem_of_here.
      rewrite (bool_decide_ext (FlagDebug ∈ FlagRelease :: rest) (FlagDebug ∈ rest))
        by (by rewrite elem_of_cons_ne).
      rewrite IH; cbn [debug release orb].
      * by rewrite !orb_true_r.
      * intros Hin. exfalso. apply Hboth.
        split; [by apply list_elem_of_further | apply list_elem_of_here].
      * done.
      * intros [? ?]. apply Hboth.
        split; [by apply list_elem_of_further | apply list_elem_of_here].
      * by rewrite orb_true_r.
Qed.

(** The parser accepts the well-formed command lines and no others, and
    returns the flag that is on the command line. *)
Lemma parse_known_args_well_formed argv args :
  parse_known_args argv {| debug := false; release := false |} [] = Accepted args
  ↔ well_formed argv
    ∧ args = {| debug := bool_decide (FlagDebug ∈ argv);
                release := bool_decide (FlagRelease ∈ argv) |}.
Proof.
  unfold well_formed. split.
  - intros (_ & Hall & Hd & Hr & Hx & Hone)%parse_known_args_accepted.
    cbn [debug release orb andb] in *. specialize (Hx eq_refl).
    destruct args as [d r]. cbn [debug release] in *. subst d r.
    split; [|done]. split; [done|].
    destruct (decide (FlagDebug ∈ argv)) as [Hin|Hout],
             (decide (FlagRelease ∈ argv)) as [Hin'|Hout'].
    + by rewrite !bool_decide_eq_true_2 in Hx.
    + by left.
    + by right.
    + by rewrite !bool_decide_eq_false_2 in Hone.
  - intros [[Hall Hflags] ->].
    rewrite parse_known_args_variants; cbn [debug release orb]; try done.
    + tauto.
    + destruct Hflags as [[Hin Hout] | [Hout Hin]].
      * by rewrite (bool_decide_eq_true_2 _ Hin).
      * by rewrite (bool_decide_eq_true_2 _ Hin), orb_true_r.
Qed.

(** One call of the command runner inside a run [H], split on what the
    environment answers. *)
Ltac step_run_command H :=
  match type of H with
  | context [run_command ?env ?c ?d ?w] =>
      rewrite (run_command_eq env c d w) in H; cbv zeta in H; simpl in H;
      let r := fresh "r" in let fs' := fresh "disk" in
      let Hs := fresh "Hspawn" in let Hrc := fresh "Hrc" in
      destruct (spawn env _ c _) as [[r fs']|] eqn:Hs;
      [destruct (returncode r =? 0)%Z eqn:Hrc|]; simpl in H
  end.

Ltac step_find H :=
  match type of H with
  | context [find_apk_file ?bt ?w] =>
      let found := fresh "found" in
      let tr := fresh "queries" in let Heq := fresh "Hfind" in
      let Htr := fresh "Hqueries" in let Hfound := fresh "Hfound" in
      destruct (find_apk_file_run bt w) as (found & tr & Heq & Htr & Hfound);
      [by (left + right)|];
      rewrite Heq in H; clear Heq Hfound; simpl in H;
      let Hf := fresh "Hfalsy" in
      destruct (falsy found) eqn:Hf; simpl in H
  end.

Ltac step_rename H :=
  match type of H with
  | context [rename_apk_with_version ?env ?p ?bt ?w] =>
      let d := fresh "d" in let src := fresh "src" in let dst := fresh "dst" in
      let line := fresh "line" in
      let Hd := fresh "Hd" in let Hsrc := fresh "Hsrc" in let Hdst := fresh "Hdst" in
      let Heq := fresh "Heq" in
      destruct (rename_apk_with_version_run env p bt w)
        as (d & src & dst & line & Hd & Hsrc & Hdst & Heq);
      rewrite Heq in H; clear Heq Hd Hsrc Hdst; simpl in H;
      let Hr := fresh "Hrename" in
      destruct (fs_rename src dst _) eqn:Hr; simpl in H
  end.

Ltac step_deliver H :=
  unfold deliver, send_apk_via_tailscale, os_path_getsize in H; unfold_M; simpl in H;
  let Hl := fresh "Hlookup" in
  destruct (fs_lookup _ _) eqn:Hl; simpl in H;
  [ step_rename H; [ step_run_command H | ] | ].

(** Every path of a run [H : main env argv (init_world fs0) = (r, w)]. *)
Ltac main_paths H :=
  unfold main, build_phase, parse_args, check_project_directory, build_stage in H;
  unfold_M; unfold os_path_exists in H;
  destruct (parse_known_args _ _ _) as [[[] ?]| |];
  simpl in H;
  [ destruct (fs_exists _ "pubspec.yaml"); simpl in H;
      [ step_run_command H;
        [ step_run_command H;
          [ step_run_command H;
            [ step_find H; [ | step_deliver H ] | | ] | | ] | | ] | ]
  | destruct (fs_exists _ "pubspec.yaml"); simpl in H;
      [ step_run_command H;
        [ step_run_command H;
          [ step_run_command H;
            [ step_find H; [ | step_deliver H ] | | ] | | ] | | ] | ]
  | | ];
  apply pair_equal_spec in H; destruct H as [<- <-]; cbn [fs trace] in *.

Lemma prints_no_spawn (l : list event) :
  Forall (λ e, is_print e = true) l → Forall (λ e, is_spawn e = false) l.
Proof. intros H. eapply Forall_impl; [done|]. by intros []. Qed.

Lemma queries_no_spawn (l : list event) :
  Forall (λ e, is_discovery e = true) l → Forall (λ e, is_spawn e = false) l.
Proof. intros H. eapply Forall_impl; [done|]. by intros []. Qed.

Lemma spawn_not_in (l : list event) c r :
  Forall (λ e, is_spawn e = false) l → EvSpawn c r ∉ l.
Proof. intros Hl Hin. eapply Forall_forall in Hl; [|exact Hin]. done. Qed.

Create HintDb quiet.
#[global] Hint Resolve prints_echo prints_announce prints_diagnostic : quiet.
#[global] Hint Resolve prints_no_spawn queries_no_spawn : quiet.

Ltac no_spawn :=
  match goal with
  | H : EvSpawn ?c ?r ∈ ?l |- _ =>
      exfalso; apply (spawn_not_in l c r); [ by eauto with quiet | exact H ]
  end.

Ltac zero_status :=
  repeat match goal with
         | H : (_ =? 0)%Z = true |- _ => apply Z.eqb_eq in H
         | H : (_ =? 0)%Z = false |- _ => apply Z.eqb_neq in H
         end.

Ltac ends_with :=
  first [ reflexivity
        | apply suffix_cons_r; ends_with
        | apply suffix_app_r; ends_with ].

(** ** The claims on single stages *)

(** C10. The versioning stage does not look at the build variant: on the
    same path and in the same world (file system, history, clock) it
    returns the same name and leaves the same world, whatever [build_type]
    is. *)
Theorem rename_ignores_build_type (env : Env) (apk_path bt1 bt2 : string) (w : World) :
  rename_apk_with_version env apk_path bt1 w
  = rename_apk_with_version env apk_path bt2 w.
Proof. reflexivity. Qed.




(** C8. The project check asks for [pubspec.yaml] in the working directory.
    When the file is there the check returns without a word: the query is
    its only event and the file system is as before.  When it is missing
    the check prints its diagnostic and leaves with status 1; a run of
    [main] then ends before any command is started, with a non-zero status
    unless the help flag is on the command line; and once the parser has
    accepted the command line, the run ends in the check, with status 1. *)
Theorem project_check (env : Env) :
  (∀ w, fs_exists (fs w) "pubspec.yaml" = true →
        check_project_directory w
        = (Ok tt, {| fs := fs w;
                     trace := trace w ++ [EvOsPathExists "pubspec.yaml" true] |}))
  ∧ (∀ w, fs_exists (fs w) "pubspec.yaml" = false →
          check_project_directory w
          = (Raised (SystemExit 1),
             {| fs := fs w;
                trace := trace w ++
                  [EvOsPathExists "pubspec.yaml" false;
                   EvPrint "❌ Not in Flutter project directory (pubspec.yaml not found)"] |}))
  ∧ (∀ argv fs0 r w,
       fs_exists fs0 "pubspec.yaml" = false →
       main env argv (init_world fs0) = (r, w) →
       (FlagHelp ∉ argv → exit_status r ≠ 0%Z) ∧ spawned (trace w) = [] ∧ fs w = fs0)
  ∧ (∀ argv w0 args w1,
       parse_args argv w0 = (Ok args, w1) →
       fs_exists (fs w1) "pubspec.yaml" = false →
       main env argv w0
       = (Raised (SystemExit 1),
          {| fs := fs w1;
             trace := trace w1 ++
               [EvPrint ("🚀 Starting " +:+ (if debug args then "debug" else "release")
                         +:+ " build process...");
                EvOsPathExists "pubspec.yaml" false;
                EvPrint "❌ Not in Flutter project directory (pubspec.yaml not found)"] |})).
Proof.
  split_and!; cycle 3.
  { intros argv w0 args w1 Hparse Hfs.
    unfold main, build_phase, check_project_directory, os_path_exists. unfold_M.
    rewrite Hparse. simpl. rewrite Hfs. simpl. by rewrite <- !app_assoc. }
  - intros w Hw. unfold check_project_directory, os_path_exists. unfold_M.
    rewrite Hw. done.
  - intros w Hw. unfold check_project_directory, os_path_exists. unfold_M.
    rewrite Hw. simpl. by rewrite <- app_assoc.
  - intros argv fs0 r w Hfs H.
    unfold main, build_phase, parse_args, check_project_directory in H.
    unfold_M. unfold os_path_exists in H.
    destruct (parse_known_args argv _ []) as [[[] ?]|message|] eqn:Hparse;
      simpl in H; rewrite ?Hfs in H; simpl in H; simplify_eq;
      split_and!; try done.
    intros Hhelp. by apply parse_known_args_help in Hparse.
Qed.

Lemma project_check_witness :
  exit_status (fst (main Sample.env_ok [FlagDebug] (init_world []))) ≠ 0%Z
  ∧ spawned (trace (snd (main Sample.env_ok [FlagDebug] (init_world [])))) = [].
Proof.
  destruct (project_check Sample.env_ok) as (_ & _ & H & _).
  destruct (H [FlagDebug] [] _ _ eq_refl eq_refl) as (H1 & H2 & _).
  split; [apply H1; by apply (bool_decide_unpack _) | exact H2].
Defined.

Lemma contains_here (s t : string) : contains (s +:+ t) s.
Proof. exists "", t. done. Qed.

Lemma contains_later (s t part : string) : contains t part → contains (s +:+ t) part.
Proof.
  intros (before & after & ->). exists (s +:+ before), after.
  by rewrite append_assoc.
Qed.

Lemma contains_empty (text : string) : contains text "".
Proof. exists "", text. done. Qed.

Lemma nonempty_false (s : string) : Str.nonempty s = false → s = "".
Proof. by destruct s. Qed.

Ltac find_part :=
  rewrite ?append_assoc; repeat first [ apply contains_here | apply contains_later ].

Section Runner.
Context (env : Env).

Lemma echo_contains r : contains (printed (echo r)) (stdout r).
Proof.
  unfold echo. destruct (Str.nonempty (stdout r)) eqn:Hout; simpl.
  - apply contains_here.
  - apply nonempty_false in Hout as ->. apply contains_empty.
Qed.

Lemma diagnostic_contains description cmd r :
  contains (printed (diagnostic env description cmd r)) description
  ∧ contains (printed (diagnostic env description cmd r)) (stdout r)
  ∧ contains (printed (diagnostic env description cmd r)) (stderr r).
Proof.
  unfold diagnostic.
  destruct (Str.nonempty (stdout r)) eqn:Hout, (Str.nonempty (stderr r)) eqn:Herr;
    simpl; try apply nonempty_false in Hout as ->; try apply nonempty_false in Herr as ->;
    split_and!; first [ apply contains_empty | find_part ].
Qed.

(** In a run of [main], a command that ends with a non-zero status is the
    last thing that happens but for its diagnostic, and the run leaves with
    status 1. *)
Lemma main_first_failure_halts argv fs0 r w :
  main env argv (init_world fs0) = (r, w) →
  ∀ cmd cp, EvSpawn cmd (Some cp) ∈ trace w → returncode cp ≠ 0%Z →
    r = Raised (SystemExit 1)
    ∧ ∃ description,
        (EvSpawn cmd (Some cp) :: diagnostic env description cmd cp) `suffix_of` trace w.
Proof.
  intros H. main_paths H.
  all: intros cmd cp Hin Hne; zero_status.
  all: set_unfold in Hin; destruct_or!; simplify_eq; try done; try no_spawn.
  all: split; [done|]; eexists; ends_with.
Qed.

End Runner.

(** C2. The command runner announces the command and starts it.  When the
    command ends with status zero, the runner prints what the command
    wrote on its standard output and returns the completed process.  When
    it ends with another status, the runner prints a diagnostic with the
    description, the captured output and the captured errors, and leaves
    the interpreter with status 1.  Nothing catches that exit: in a run of
    [main] the first command that fails is the last thing that runs. *)
Theorem run_command_contract (env : Env) :
  (∀ cmd description w r fs',
     spawn env (trace w ++ announce description cmd) cmd (fs w) = Some (r, fs') →
     (returncode r = 0%Z →
      run_command env cmd description w
      = (Ok r, {| fs := fs';
                  trace := (trace w ++ announce description cmd)
                           ++ EvSpawn cmd (Some r) :: echo r |})
      ∧ contains (printed (echo r)) (stdout r))
     ∧ (returncode r ≠ 0%Z →
        run_command env cmd description w
        = (Raised (SystemExit 1),
           {| fs := fs';
              trace := (trace w ++ announce description cmd)
                       ++ EvSpawn cmd (Some r) :: diagnostic env description cmd r |})
        ∧ exit_status (fst (run_command env cmd description w)) = 1%Z
        ∧ contains (printed (diagnostic env description cmd r)) description
        ∧ contains (printed (diagnostic env description cmd r)) (stdout r)
        ∧ contains (printed (diagnostic env description cmd r)) (stderr r)))
  ∧ (∀ argv fs0 r w,
       main env argv (init_world fs0) = (r, w) →
       ∀ cmd cp, EvSpawn cmd (Some cp) ∈ trace w → returncode cp ≠ 0%Z →
         r = Raised (SystemExit 1)
         ∧ ∃ description,
             (EvSpawn cmd (Some cp) :: diagnostic env description cmd cp)
               `suffix_of` trace w).
Proof.
  split.
  - intros cmd description w r fs' Hspawn.
    rewrite run_command_eq. cbv zeta. rewrite Hspawn. split.
    + intros ->%Z.eqb_eq. split; [done|]. apply echo_contains.
    + intros Hne%Z.eqb_neq. rewrite Hne. split; [done|]. split; [done|].
      apply diagnostic_contains.
  - apply main_first_failure_halts.
Qed.

Lemma run_command_contract_witness :
  fst (run_command Sample.env_ok clean_cmd "Cleaning previous builds" (init_world []))
  = Ok Sample.done
  ∧ fst (run_command Sample.env_clean_fails clean_cmd "Cleaning previous builds"
           (init_world []))
    = Raised (SystemExit 1)
  ∧ fst (main Sample.env_clean_fails [FlagDebug] (init_world Sample.project))
    = Raised (SystemExit 1).
Proof.
  split_and!.
  - destruct (run_command_contract Sample.env_ok) as [H _].
    destruct (H clean_cmd "Cleaning previous builds" (init_world []) Sample.done []
                eq_refl) as [Hok _].
    destruct (Hok eq_refl) as [Heq _]. exact (f_equal fst Heq).
  - destruct (run_command_contract Sample.env_clean_fails) as [H _].
    destruct (H clean_cmd "Cleaning previous builds" (init_world []) Sample.failure []
                eq_refl) as [_ Hfail].
    destruct Hfail as [Heq _]; [discriminate | exact (f_equal fst Heq)].
  - destruct (run_command_contract Sample.env_clean_fails) as [_ H].
    destruct (H [FlagDebug] Sample.project _ _ eq_refl clean_cmd Sample.failure)
      as [Heq _]; [ | discriminate | exact Heq ].
    vm_compute. do 4 apply list_elem_of_further. apply list_elem_of_here.
Defined.

(** C9. The transfer stage starts exactly one command, through the command
    runner: [tailscale file cp] with the artifact path as its source and
    the device name followed by a colon as its destination.  When that
    command ends with a non-zero status the stage leaves the interpreter
    with status 1, after the diagnostic of the runner, and so does a run of
    [main] in which it happens. *)
Theorem send_apk_via_tailscale_command (env : Env) (apk_path device_name : string)
    (w : World) :
  let cmd := ["tailscale"; "file"; "cp"; apk_path; device_name +:+ ":"] in
  let description :=
    "Sending " +:+ os_path_basename apk_path +:+ " to " +:+ device_name
    +:+ " via Tailscale" in
  send_apk_via_tailscale env apk_path device_name
  = (run_command env cmd description;;
     print "✅ APK sent successfully!";;
     print ("📱 Check the Downloads folder on " +:+ device_name
            +:+ " for " +:+ os_path_basename apk_path))
  ∧ ∃ o after,
      trace (snd (send_apk_via_tailscale env apk_path device_name w))
      = (trace w ++ announce description cmd) ++ EvSpawn cmd o :: after
      ∧ Forall (λ e, is_print e = true) after
      ∧ (∀ r, o = Some r → returncode r ≠ 0%Z →
           fst (send_apk_via_tailscale env apk_path device_name w)
           = Raised (SystemExit 1)
           ∧ after = diagnostic env description cmd r)
      ∧ (∀ r, o = Some r → returncode r = 0%Z →
           fst (send_apk_via_tailscale env apk_path device_name w) = Ok tt)
      ∧ (∀ argv fs0 r w',
           main env argv (init_world fs0) = (r, w') →
           ∀ cp, EvSpawn cmd (Some cp) ∈ trace w' → returncode cp ≠ 0%Z →
             exit_status r = 1%Z).
Proof.
  intros cmd description. split; [reflexivity|].
  assert (∀ argv fs0 r w',
           main env argv (init_world fs0) = (r, w') →
           ∀ cp, EvSpawn cmd (Some cp) ∈ trace w' → returncode cp ≠ 0%Z →
             exit_status r = 1%Z) as Hmain.
  { intros argv fs0 r w' Hrun cp Hin Hne.
    by destruct (main_first_failure_halts env argv fs0 r w' Hrun cmd cp Hin Hne)
      as [-> _]. }
  unfold send_apk_via_tailscale, ts_cmd. fold cmd. fold description.
  unfold_M. rewrite (run_command_eq env cmd description w). cbv zeta.
  destruct (spawn env _ cmd (fs w)) as [[r fs']|] eqn:Hspawn.
  - destruct (returncode r =? 0)%Z eqn:Hrc; zero_status; cbn [fst snd fs trace].
    + eexists (Some r), _. rewrite <- !app_assoc. split; [reflexivity|].
      split_and!.
      * apply Forall_app. split; [apply prints_echo|]. by repeat constructor.
      * intros ? [= <-] ?. done.
      * done.
      * done.
    + exists (Some r), (diagnostic env description cmd r). split_and!.
      * done.
      * apply prints_diagnostic.
      * by intros ? [= <-] _.
      * intros ? [= <-] ?. done.
      * done.
  - cbn [fst snd fs trace]. exists None, []. split_and!; done.
Qed.

Lemma send_apk_via_tailscale_command_witness :
  fst (send_apk_via_tailscale Sample.env_transfer_fails "app.apk" "asus" (init_world []))
  = Raised (SystemExit 1).
Proof.
  destruct (send_apk_via_tailscale_command Sample.env_transfer_fails "app.apk" "asus"
              (init_world [])) as (_ & o & after & Htrace & _ & Hfail & _ & _).
  apply (Hfail Sample.failure); [|discriminate].
  vm_compute in Htrace. injection Htrace as <- _. reflexivity.
Defined.

Lemma spawn_log_app (l1 l2 : list event) :
  spawn_log (l1 ++ l2) = spawn_log l1 ++ spawn_log l2.
Proof. apply omap_app. Qed.

Lemma spawn_log_prints (l : list event) :
  Forall (λ e, is_print e = true) l → spawn_log l = [].
Proof.
  induction 1 as [|e l He _ IH]; [done|]. by destruct e.
Qed.

Lemma spawn_log_spawn cmd o (l : list event) :
  spawn_log (EvSpawn cmd o :: l) = (cmd, o) :: spawn_log l.
Proof. reflexivity. Qed.

Lemma spawn_log_announce description cmd : spawn_log (announce description cmd) = [].
Proof. reflexivity. Qed.

Lemma spawn_log_echo r : spawn_log (echo r) = [].
Proof. apply spawn_log_prints, prints_echo. Qed.

Lemma spawn_log_diagnostic env description cmd r :
  spawn_log (diagnostic env description cmd r) = [].
Proof. apply spawn_log_prints, prints_diagnostic. Qed.

Ltac spawn_log_norm :=
  unfold spawned;
  rewrite <- ?app_assoc;
  rewrite ?spawn_log_app, ?spawn_log_spawn, ?spawn_log_announce, ?spawn_log_echo,
    ?spawn_log_diagnostic;
  cbn [app spawn_log omap].

Ltac exists_log o1 o2 o3 :=
  eexists _, o1, o2, o3; split; [reflexivity|];
  spawn_log_norm; cbn [until_failure status_ok fmap list_fmap fst];
  repeat match goal with H : (_ =? 0)%Z = _ |- _ => rewrite H end;
  cbn [andb fmap list_fmap fst];
  split_and!; [ done | done | by intros ].

(** C4. The build stage is three calls of the command runner, in this
    order: the clean command, the dependency fetch, the build command of
    the variant.  The first two are the same for both variants.  The
    commands that a run of the stage starts are that sequence, cut after
    the first command that fails: once the clean and the fetch have ended
    with status zero, exactly one build command is started, with the flag
    of the variant and the target platform [android-arm64]; and never more
    than one. *)
Theorem build_stage_invocations (env : Env) (build_type : string) (w : World) :
  build_type = "debug" ∨ build_type = "release" →
  build_stage env build_type
  = (run_command env ["flutter"; "clean"] "Cleaning previous builds";;
     run_command env ["flutter"; "pub"; "get"] "Getting dependencies";;
     run_command env
       ["flutter"; "build"; "apk"; "--" +:+ build_type;
        "--target-platform"; "android-arm64"]
       ("Building " +:+ build_type +:+ " APK");;
     mret tt)
  ∧ ∃ tr o1 o2 o3,
      trace (snd (build_stage env build_type w)) = trace w ++ tr
      ∧ spawn_log tr
        = until_failure
            [ (["flutter"; "clean"], o1);
              (["flutter"; "pub"; "get"], o2);
              (["flutter"; "build"; "apk"; "--" +:+ build_type;
                "--target-platform"; "android-arm64"], o3) ]
      ∧ (fst (build_stage env build_type w) = Ok tt
         ↔ status_ok o1 && status_ok o2 && status_ok o3 = true)
      ∧ (status_ok o1 = true → status_ok o2 = true →
         spawned tr
         = [ ["flutter"; "clean"];
             ["flutter"; "pub"; "get"];
             ["flutter"; "build"; "apk"; "--" +:+ build_type;
              "--target-platform"; "android-arm64"] ]).
Proof.
  intros Hbt. split.
  { by destruct Hbt as [-> | ->]. }
  assert (build_cmd build_type
          = ["flutter"; "build"; "apk"; "--" +:+ build_type;
             "--target-platform"; "android-arm64"]) as Hcmd.
  { by destruct Hbt as [-> | ->]. }
  destruct (build_stage env build_type w) as [r w'] eqn:H.
  unfold build_stage in H. unfold_M. rewrite Hcmd in H.
  set (cmd := ["flutter"; "build"; "apk"; _; _; _]) in *.
  unfold clean_cmd, pub_get_cmd in H.
  step_run_command H; [step_run_command H; [step_run_command H| |] | |].
  all: apply pair_equal_spec in H; destruct H as [<- <-]; cbn [fst snd fs trace].
  all: rewrite <- ?app_assoc.
  1: exists_log (Some r0) (Some r1) (Some r2).
  1: exists_log (Some r0) (Some r1) (Some r2).
  1: exists_log (Some r0) (Some r1) (@None CompletedProcess).
  1: exists_log (Some r0) (Some r1) (@None CompletedProcess).
  1: exists_log (Some r0) (@None CompletedProcess) (@None CompletedProcess).
  1: exists_log (Some r0) (@None CompletedProcess) (@None CompletedProcess).
  1: exists_log (@None CompletedProcess) (@None CompletedProcess) (@None CompletedProcess).
Qed.

Lemma build_stage_invocations_witness :
  spawned (trace (snd (build_stage Sample.env_ok "release" (init_world []))))
  = [ ["flutter"; "clean"];
      ["flutter"; "pub"; "get"];
      ["flutter"; "build"; "apk"; "--release"; "--target-platform"; "android-arm64"] ].
Proof.
  destruct (build_stage_invocations Sample.env_ok "release" (init_world []))
    as (_ & tr & o1 & o2 & o3 & Htr & Hlog & _ & Hall).
  { right. reflexivity. }
  rewrite Htr. cbn [trace init_world app].
  vm_compute in Htr. subst tr.
  cbn in Hlog. injection Hlog as <- Hlog.
  cbn in Hlog. injection Hlog as <- Hlog.
  apply Hall; reflexivity.
Defined.

(** ** Renaming in the file system *)

Lemma fs_lookup_app (fs1 fs2 : filesystem) p :
  fs_lookup (fs1 ++ fs2) p
  = match fs_lookup fs1 p with Some c => Some c | None => fs_lookup fs2 p end.
Proof.
  induction fs1 as [|[q c] fs1 IH]; [done|]. simpl.
  by destruct (String.eqb q p).
Qed.

Lemma fs_lookup_remove_eq (fs0 : filesystem) p : fs_lookup (fs_remove p fs0) p = None.
Proof.
  unfold fs_remove. induction fs0 as [|[q c] fs0 IH]; [done|].
  rewrite filter_cons. simpl. case_decide as Hq; [|done]. simpl.
  destruct (String.eqb_spec q p); [done|]. exact IH.
Qed.

Lemma fs_lookup_remove_ne (fs0 : filesystem) p q :
  q ≠ p → fs_lookup (fs_remove p fs0) q = fs_lookup fs0 q.
Proof.
  intros Hne. unfold fs_remove. induction fs0 as [|[q' c] fs0 IH]; [done|].
  rewrite filter_cons. simpl. case_decide as Hq; simpl.
  - by rewrite IH.
  - subst q'. destruct (String.eqb_spec p q); [congruence|]. exact IH.
Qed.

Lemma fs_rename_spec src dst (fs0 fs1 : filesystem) :
  fs_rename src dst fs0 = Some fs1 →
  ∃ content,
    fs_lookup fs0 src = Some content
    ∧ fs_lookup fs1 dst = Some content
    ∧ (src ≠ dst → fs_lookup fs1 src = None)
    ∧ (∀ q, q ≠ src → q ≠ dst → fs_lookup fs1 q = fs_lookup fs0 q).
Proof.
  unfold fs_rename. destruct (fs_lookup fs0 src) as [c|] eqn:Hsrc; [|done].
  intros [= <-]. exists c. split_and!.
  - done.
  - rewrite fs_lookup_app, fs_lookup_remove_eq. simpl. by rewrite String.eqb_refl.
  - intros Hne. rewrite fs_lookup_app, fs_lookup_remove_ne, fs_lookup_remove_eq by done.
    simpl. by destruct (String.eqb_spec dst src).
  - intros q Hsrc' Hdst'.
    rewrite fs_lookup_app, !fs_lookup_remove_ne by done.
    destruct (fs_lookup fs0 q); [done|]. simpl.
    by destruct (String.eqb_spec dst q).
Qed.

(** ** The claims on whole runs *)

(** C5. When the transfer command ends with a non-zero status, the run
    leaves with status 1.  The versioned artifact was on disk, under the
    name that the versioning stage gave it, when the command was started;
    after the command nothing happens but the printing of its diagnostic
    (no move, no deletion, no command), so that the file system at the end
    of the run is the one that the transfer command left. *)
Theorem transfer_failure_keeps_artifact (env : Env) (argv : list flag)
    (fs0 : filesystem) (r : result unit) (w : World) (p : string)
    (cp : CompletedProcess) :
  main env argv (init_world fs0) = (r, w) →
  EvSpawn ["tailscale"; "file"; "cp"; p; TARGET_DEVICE_NAME +:+ ":"] (Some cp) ∈ trace w →
  returncode cp ≠ 0%Z →
  exit_status r = 1%Z
  ∧ ∃ before after fs_before src content,
      trace w
      = before
        ++ EvSpawn ["tailscale"; "file"; "cp"; p; TARGET_DEVICE_NAME +:+ ":"] (Some cp)
           :: after
      ∧ Forall (λ e, is_print e = true) after
      ∧ EvMove src p ∈ before
      ∧ fs_lookup fs_before p = Some content
      ∧ spawn env before ["tailscale"; "file"; "cp"; p; TARGET_DEVICE_NAME +:+ ":"]
          fs_before
        = Some (cp, fs w).
Proof.
  intros H Hin Hne. main_paths H.
  all: zero_status; unfold ts_cmd, clean_cmd, pub_get_cmd, build_cmd in *; simpl in Hin.
  all: set_unfold in Hin; destruct_or!; simplify_eq; try done; try no_spawn.
  all: split; [done|].
  all: match goal with
       | Hr : fs_rename ?src ?dst _ = Some ?f,
         Hs : spawn _ ?h ?c ?f = Some (?r3, _) |- _ =>
           destruct (fs_rename_spec _ _ _ _ Hr) as (content & _ & Hdst & _);
           exists h, (diagnostic env
                        ("Sending " +:+ os_path_basename dst +:+ " to "
                         +:+ TARGET_DEVICE_NAME +:+ " via Tailscale")
                        c r3),
             f, src, content
       end.
  all: split_and!; [ reflexivity | apply prints_diagnostic | | done | done ].
  all: set_unfold; tauto.
Qed.

Ltac elem_of_concrete :=
  vm_compute; repeat first [ apply list_elem_of_here | apply list_elem_of_further ].

Lemma transfer_failure_keeps_artifact_witness :
  exit_status (fst (main Sample.env_transfer_fails [FlagDebug] (init_world Sample.project)))
  = 1%Z
  ∧ fs_lookup (fs (snd (main Sample.env_transfer_fails [FlagDebug]
                          (init_world Sample.project))))
      "build/app/outputs/flutter-apk/app-debug_20261104_090507.apk"
    = Some "PK".
Proof.
  split; [|by vm_compute].
  eapply (transfer_failure_keeps_artifact Sample.env_transfer_fails [FlagDebug]
            Sample.project _ _
            "build/app/outputs/flutter-apk/app-debug_20261104_090507.apk"
            Sample.failure).
  - apply surjective_pairing.
  - elem_of_concrete.
  - discriminate.
Defined.

Lemma prints_wait_for_nothing (l : list event) :
  Forall (λ e, is_print e = true) l → Forall (λ e, needs_build e = false) l.
Proof. intros H. eapply Forall_impl; [done|]. by intros []. Qed.

#[global] Hint Resolve prints_wait_for_nothing : quiet.

Ltac forall_trace :=
  repeat match goal with
         | |- Forall _ [] => apply Forall_nil_2
         | |- Forall _ (_ :: _) => apply Forall_cons_2; [reflexivity|]
         | |- Forall _ (_ ++ _) => apply Forall_app_2
         | |- Forall _ (echo _) => apply prints_wait_for_nothing, prints_echo
         | |- Forall _ (announce _ _) => apply prints_wait_for_nothing, prints_announce
         | |- Forall _ (diagnostic _ _ _ _) =>
             apply prints_wait_for_nothing, prints_diagnostic
         end.

Ltac starts_with :=
  cbn [app];
  repeat match goal with
         | |- ?x :: _ `prefix_of` ?x :: _ => apply prefix_cons
         | |- ?k ++ _ `prefix_of` ?k ++ _ => apply prefix_app, prefix_cons, prefix_nil
         | |- _ `prefix_of` _ ++ _ => apply prefix_app_r
         end.

(** A step that waits for the build comes after the event [x] as soon as
    everything before [x] waits for nothing. *)
Lemma gate_split (tr h : list event) (x : event) :
  needs_build x = false →
  Forall (λ e, needs_build e = false) h →
  (h ++ [x]) `prefix_of` tr →
  ∀ before e after, tr = before ++ e :: after → needs_build e = true → x ∈ before.
Proof.
  intros Hx Hh [k ->] before e after Heq He.
  rewrite <- app_assoc in Heq. simpl in Heq.
  apply app_eq_inv in Heq as [(k' & -> & Hk) | (k' & -> & Hk)].
  - destruct k' as [|y k']; simplify_eq/=; try congruence.
    apply Forall_app in Hh as [_ Hh]. inversion Hh; congruence.
  - destruct k' as [|y k']; simplify_eq/=; try congruence.
    apply elem_of_app. right. apply list_elem_of_here.
Qed.

Section Gate.
Context (env : Env).

(** In a run of [main], either no step that waits for the build is ever
    taken, or a build command that ended with status zero comes before
    all of them. *)
Lemma main_build_gate argv fs0 r w :
  main env argv (init_world fs0) = (r, w) →
  Forall (λ e, needs_build e = false) (trace w)
  ∨ ∃ h build_type cp,
      (h ++ [EvSpawn (build_cmd build_type) (Some cp)]) `prefix_of` trace w
      ∧ returncode cp = 0%Z
      ∧ Forall (λ e, needs_build e = false) h.
Proof.
  intros H. main_paths H.
  all: zero_status.
  all: first
    [ left; solve [forall_trace]
    | right;
      match goal with
      | Hs : spawn env ?h (build_cmd ?bt) _ = Some (?r2, _), Hr : returncode ?r2 = 0%Z |- _ =>
          exists h, bt, r2; split_and!;
          [ solve [starts_with] | exact Hr | solve [forall_trace] ]
      end ].
Qed.
End Gate.

Lemma build_waits_for_nothing build_type o :
  needs_build (EvSpawn (build_cmd build_type) o) = false.
Proof. unfold build_cmd. by destruct (String.eqb build_type "debug"). Qed.

(** C6. When the build command ends with a non-zero status, the run leaves
    with status 1 and its trace holds no query of artifact discovery and
    no invocation of the transfer command.  In every run, a query of
    discovery or an invocation of the transfer command comes after a build
    command that ended with status zero. *)
Theorem build_failure_stops_pipeline (env : Env) (argv : list flag)
    (fs0 : filesystem) (r : result unit) (w : World) :
  main env argv (init_world fs0) = (r, w) →
  (∀ build_type cp,
     EvSpawn (build_cmd build_type) (Some cp) ∈ trace w → returncode cp ≠ 0%Z →
     exit_status r = 1%Z
     ∧ Forall (λ e, is_discovery e = false ∧ is_transfer e = false) (trace w))
  ∧ (∀ before e after,
       trace w = before ++ e :: after →
       is_discovery e = true ∨ is_transfer e = true →
       ∃ build_type cp,
         EvSpawn (build_cmd build_type) (Some cp) ∈ before ∧ returncode cp = 0%Z).
Proof.
  intros H. split.
  - intros build_type cp Hin Hne.
    assert (exit_status r = 1%Z ∧ Forall (λ e, needs_build e = false) (trace w))
      as [Hexit Hquiet].
    { main_paths H.
      all: zero_status; unfold build_cmd, clean_cmd, pub_get_cmd, ts_cmd in *.
      all: destruct (String.eqb build_type "debug"); simpl in Hin.
      all: set_unfold in Hin; destruct_or!; simplify_eq; try done; try no_spawn.
      all: split; [done|]; solve [forall_trace]. }
    split; [done|].
    eapply Forall_impl; [exact Hquiet|]. intros e. unfold needs_build.
    by intros [-> ->]%orb_false_iff.
  - intros before e after Heq He.
    destruct (main_build_gate env argv fs0 r w H) as [Hquiet|(h & bt & cp & Hpre & Hcp & Hh)].
    + exfalso. rewrite Heq in Hquiet.
      apply Forall_app in Hquiet as [_ Hquiet]. inversion Hquiet as [|? ? Hx _]; subst.
      unfold needs_build in Hx. apply orb_false_iff in Hx as [? ?].
      destruct He; congruence.
    + exists bt, cp. split; [|done].
      eapply gate_split; [apply build_waits_for_nothing | exact Hh | exact Hpre | exact Heq |].
      unfold needs_build. destruct He as [-> | ->]; [done|]. apply orb_true_r.
Qed.

Lemma build_failure_stops_pipeline_witness :
  exit_status (fst (main Sample.env_build_fails [FlagDebug] (init_world Sample.project)))
  = 1%Z
  ∧ Forall (λ e, is_discovery e = false ∧ is_transfer e = false)
      (trace (snd (main Sample.env_build_fails [FlagDebug] (init_world Sample.project)))).
Proof.
  destruct (build_failure_stops_pipeline Sample.env_build_fails [FlagDebug]
              Sample.project _ _ (surjective_pairing _)) as [Hfail _].
  apply (Hfail "debug" Sample.failure).
  - elem_of_concrete.
  - discriminate.
Defined.

(** ** Artifact discovery *)

Lemma find_none_iff {A} (P : A → bool) (l : list A) :
  List.find P l = None ↔ Forall (λ x, P x = false) l.
Proof.
  induction l as [|x l IH]; [by split|]. rewrite find_cons.
  destruct (P x) eqn:Hx; split.
  - done.
  - inversion 1; congruence.
  - intros H. constructor; [done|]. by apply IH.
  - inversion 1; subst. by apply IH.
Qed.

Lemma find_some_elem {A} (P : A → bool) (l : list A) x :
  List.find P l = Some x → x ∈ l ∧ P x = true.
Proof. intros [Hin HP]%List.find_some. split; [|done]. by apply list_elem_of_In. Qed.

Lemma candidates_nonempty build_type (fs0 : filesystem) p :
  build_type = "debug" ∨ build_type = "release" →
  p ∈ candidates build_type fs0 → p ≠ "".
Proof.
  intros Hbt Hin ->. unfold candidates in Hin.
  apply elem_of_cons in Hin as [Hin|Hin].
  - by destruct Hbt as [-> | ->].
  - apply list_elem_of_join in Hin as (l & Hin & Hl).
    apply list_elem_of_fmap in Hl as (pat & -> & Hpat).
    unfold fs_glob in Hin. apply list_elem_of_filter in Hin as [Hmatch _].
    destruct Hbt as [-> | ->]; unfold alt_patterns in Hpat;
      set_unfold in Hpat; destruct_or!; subst; done.
Qed.

(** C1. For both variants, discovery returns the first path of the ordered
    candidate list (the exact path of the variant, then the files of each
    alternative pattern, in order) that exists, and [None] exactly when no
    candidate exists.  Discovery only queries the file system: it does not
    leave the interpreter, print or change a file.  After [None], [main]
    prints its diagnostic and leaves with status 1. *)
Theorem find_apk_file_first_existing (env : Env) (build_type : string) (w : World) :
  build_type = "debug" ∨ build_type = "release" →
  let found := List.find (fs_exists (fs w)) (candidates build_type (fs w)) in
  ∃ queries,
    find_apk_file build_type w
    = (Ok found, {| fs := fs w; trace := trace w ++ queries |})
    ∧ Forall (λ e, is_discovery e = true) queries
    ∧ (found = None
       ↔ Forall (λ p, fs_exists (fs w) p = false) (candidates build_type (fs w)))
    ∧ (falsy found = true ↔ found = None)
    ∧ (∀ argv w0,
         build_phase env argv w0 = (Ok build_type, w) →
         found = None →
         main env argv w0
         = (Raised (SystemExit 1),
            {| fs := fs w;
               trace := (trace w ++ queries)
                        ++ [EvPrint ("❌ Could not find " +:+ build_type
                                     +:+ " APK file")] |})
         ∧ exit_status (fst (main env argv w0)) = 1%Z).
Proof.
  intros Hbt found.
  destruct (find_apk_file_eq build_type w Hbt) as (queries & Hfind & Hqueries).
  exists queries. split_and!; [done | done | apply find_none_iff | |].
  - unfold falsy. destruct found as [p|] eqn:Hfound; [|done].
    split; [|done]. intros Hp. exfalso.
    apply find_some_elem in Hfound as [Hin _].
    apply (candidates_nonempty _ _ _ Hbt) in Hin.
    by destruct p.
  - intros argv w0 Hphase Hnone.
    assert (main env argv w0
            = (Raised (SystemExit 1),
               {| fs := fs w;
                  trace := (trace w ++ queries)
                           ++ [EvPrint ("❌ Could not find " +:+ build_type
                                        +:+ " APK file")] |})) as Hmain.
    { unfold main. unfold_M. rewrite Hphase, Hfind. fold found. by rewrite Hnone. }
    by rewrite Hmain.
Qed.

(** The example of the specification: of the candidates [A; B; C], only
    [B] and [C] exist, and discovery returns [B]. *)
Example find_apk_file_second_candidate :
  candidates "release" Sample.two_matches
  = [ "build/app/outputs/flutter-apk/app-release.apk";
      "build/app/outputs/flutter-apk/app-arm64-release.apk";
      "build/app/outputs/apk/release/app.apk" ]
  ∧ fst (find_apk_file "release" (init_world Sample.two_matches))
    = Ok (Some "build/app/outputs/flutter-apk/app-arm64-release.apk").
Proof. by vm_compute. Qed.

Lemma find_apk_file_first_existing_witness :
  fst (find_apk_file "release" (init_world Sample.two_matches))
  = Ok (Some "build/app/outputs/flutter-apk/app-arm64-release.apk")
  ∧ exit_status (fst (main Sample.env_idle [FlagRelease] (init_world Sample.project)))
    = 1%Z.
Proof.
  split.
  - destruct (find_apk_file_first_existing Sample.env_idle "release"
                (init_world Sample.two_matches)) as (queries & Heq & _).
    { right. reflexivity. }
    rewrite Heq. by vm_compute.
  - destruct (find_apk_file_first_existing Sample.env_idle "release"
                (snd (build_phase Sample.env_idle [FlagRelease]
                        (init_world Sample.project))))
      as (queries & _ & _ & _ & _ & Hmain).
    { right. reflexivity. }
    apply (Hmain [FlagRelease] (init_world Sample.project)); by vm_compute.
Defined.

(** ** Patterns *)

Lemma fnmatch_star pat nm :
  fnmatch (String "*" pat) nm
  = fnmatch pat nm
    || match nm with
       | EmptyString => false
       | String _ nm' => fnmatch (String "*" pat) nm'
       end.
Proof. by destruct nm. Qed.

Lemma fnmatch_star_inv pat nm :
  fnmatch (String "*" pat) nm = true →
  ∃ a b, nm = a +:+ b ∧ fnmatch pat b = true.
Proof.
  induction nm as [|c nm IH]; rewrite fnmatch_star.
  - rewrite orb_false_r. intros H. by exists "", "".
  - intros [H|H]%orb_true_iff.
    + by exists "", (String c nm).
    + destruct (IH H) as (a & b & -> & Hb). by exists (String c a), b.
Qed.

Lemma fnmatch_char c pat nm :
  Ascii.eqb c "*" = false → Ascii.eqb c "?" = false →
  fnmatch (String c pat) nm
  = match nm with
    | EmptyString => false
    | String d nm' => Ascii.eqb c d && fnmatch pat nm'
    end.
Proof. intros H1 H2. simpl. by rewrite H1, H2. Qed.

Lemma mem_cons c d s : Str.mem c (String d s) = Ascii.eqb c d || Str.mem c s.
Proof. reflexivity. Qed.

Lemma fnmatch_no_wildcard pat nm :
  no_wildcard pat = true → fnmatch pat nm = true → nm = pat.
Proof.
  unfold no_wildcard. revert nm. induction pat as [|c pat IH]; intros nm.
  - by destruct nm.
  - rewrite !mem_cons, !negb_orb.
    intros [[Hstar Hpat1]%andb_true_iff [Hq Hpat2]%andb_true_iff]%andb_true_iff.
    apply negb_true_iff in Hstar, Hq.
    rewrite Ascii.eqb_sym in Hstar. rewrite Ascii.eqb_sym in Hq.
    rewrite fnmatch_char by done. destruct nm as [|d nm]; [done|].
    intros [->%Ascii.eqb_eq Hnm]%andb_true_iff. f_equal.
    apply IH; [|done]. by rewrite Hpat1, Hpat2.
Qed.

Lemma fnmatch_dot_apk pat nm :
  fnmatch (pat +:+ "*.apk") nm = true → ∃ stem, nm = stem +:+ ".apk".
Proof.
  revert nm. induction pat as [|c pat IH]; intros nm.
  - rewrite append_nil_l. intros (a & b & -> & Hb)%fnmatch_star_inv.
    apply (fnmatch_no_wildcard ".apk") in Hb as ->; [|done]. by exists a.
  - rewrite append_cons.
    destruct (Ascii.eqb c "*") eqn:Hstar.
    { apply Ascii.eqb_eq in Hstar as ->.
      intros (a & b & -> & Hb)%fnmatch_star_inv.
      destruct (IH _ Hb) as [stem ->]. exists (a +:+ stem). by rewrite append_assoc. }
    destruct (Ascii.eqb c "?") eqn:Hq.
    { apply Ascii.eqb_eq in Hq as ->. simpl.
      destruct nm as [|d nm]; [done|]. intros Hnm.
      destruct (IH _ Hnm) as [stem ->]. by exists (String d stem). }
    rewrite fnmatch_char by done. destruct nm as [|d nm]; [done|].
    intros [_ Hnm]%andb_true_iff.
    destruct (IH _ Hnm) as [stem ->]. by exists (String d stem).
Qed.

Lemma glob_component_no_wildcard pat nm :
  no_wildcard pat = true → glob_component pat nm = true → nm = pat.
Proof.
  unfold glob_component. intros Hpat [_ H]%andb_true_iff.
  by apply fnmatch_no_wildcard.
Qed.

Lemma glob_component_dot_apk pat nm :
  Str.starts_with "." (pat +:+ "*.apk") = false →
  Str.mem "/" nm = false →
  glob_component (pat +:+ "*.apk") nm = true →
  ∃ stem, nm = stem +:+ ".apk" ∧ package_stem stem.
Proof.
  unfold glob_component. intros -> Hslash [Hdot H]%andb_true_iff.
  rewrite orb_false_r in Hdot. apply negb_true_iff in Hdot.
  destruct (fnmatch_dot_apk _ _ H) as [stem ->]. exists stem. split; [done|].
  rewrite mem_append in Hslash. apply orb_false_iff in Hslash as [Hslash _].
  destruct stem as [|c stem]; [done|]. done.
Qed.

Lemma glob_components_literal lit pats nms :
  no_wildcard lit = true →
  glob_components (lit :: pats) nms = true →
  ∃ nms', nms = lit :: nms' ∧ glob_components pats nms' = true.
Proof.
  intros Hlit. destruct nms as [|nm nms]; [done|]. cbn [glob_components].
  intros [Hnm Hnms]%andb_true_iff.
  apply glob_component_no_wildcard in Hnm as ->; [|done]. eauto.
Qed.

Lemma glob_components_last pat nms :
  glob_components [pat] nms = true →
  ∃ nm, nms = [nm] ∧ glob_component pat nm = true.
Proof.
  destruct nms as [|nm [|nm' nms]]; cbn [glob_components]; try done.
  - rewrite andb_true_r. eauto.
  - by rewrite andb_false_r.
Qed.

Lemma glob_components_package dir pat nms :
  Forall (λ d, no_wildcard d = true) dir →
  Str.starts_with "." (pat +:+ "*.apk") = false →
  Forall (λ x, Str.mem "/" x = false) nms →
  glob_components (dir ++ [pat +:+ "*.apk"]) nms = true →
  ∃ stem, nms = dir ++ [stem +:+ ".apk"] ∧ package_stem stem.
Proof.
  intros Hdir Hpat. revert nms.
  induction Hdir as [|d dir Hd _ IH]; intros nms Hnms H.
  - apply glob_components_last in H as (nm & -> & H).
    apply Forall_cons in Hnms as [Hnm _].
    apply glob_component_dot_apk in H as (stem & -> & Hstem); eauto.
  - apply glob_components_literal in H as (nms' & -> & H); [|done].
    apply Forall_cons in Hnms as [_ Hnms].
    destruct (IH _ Hnms H) as (stem & -> & Hstem). eauto.
Qed.

Lemma glob_match_package build_type pattern p :
  build_type = "debug" ∨ build_type = "release" →
  pattern ∈ alt_patterns build_type →
  glob_match pattern p = true →
  ∃ dir stem, package_path p dir stem.
Proof.
  intros Hbt Hpat. unfold glob_match, package_path.
  pose proof (split_no_sep_in "/" p) as Hparts.
  destruct Hbt as [-> | ->]; unfold alt_patterns in Hpat;
    set_unfold in Hpat; destruct_or!; subst pattern; intros H.
  - apply (glob_components_package ["build"; "app"; "outputs"; "flutter-apk"] "*debug")
      in H as (stem & ? & ?); [|by repeat constructor|done|done].
    eexists _, stem. split_and!; [|done..]. unfold output_dirs. set_solver.
  - apply (glob_components_package ["build"; "app"; "outputs"; "apk"; "debug"] "")
      in H as (stem & ? & ?); [|by repeat constructor|done|done].
    eexists _, stem. split_and!; [|done..]. unfold output_dirs. set_solver.
  - apply (glob_components_package ["build"; "app"; "outputs"; "flutter-apk"] "*release")
      in H as (stem & ? & ?); [|by repeat constructor|done|done].
    eexists _, stem. split_and!; [|done..]. unfold output_dirs. set_solver.
  - apply (glob_components_package ["build"; "app"; "outputs"; "apk"; "release"] "")
      in H as (stem & ? & ?); [|by repeat constructor|done|done].
    eexists _, stem. split_and!; [|done..]. unfold output_dirs. set_solver.
Qed.

Lemma discovered_package build_type w0 w1 p :
  build_type = "debug" ∨ build_type = "release" →
  find_apk_file build_type w0 = (Ok (Some p), w1) →
  fs_exists (fs w0) p = true ∧ ∃ dir stem, package_path p dir stem.
Proof.
  intros Hbt Hfind.
  destruct (find_apk_file_eq build_type w0 Hbt) as (tr & Heq & _).
  rewrite Heq in Hfind. injection Hfind as Hfound _.
  apply find_some_elem in Hfound as [Hin Hex]. split; [done|].
  unfold candidates in Hin. apply elem_of_cons in Hin as [-> | Hin].
  - destruct Hbt as [-> | ->].
    + exists ["build"; "app"; "outputs"; "flutter-apk"], "app-debug".
      split_and!; [unfold output_dirs; set_solver | done | done].
    + exists ["build"; "app"; "outputs"; "flutter-apk"], "app-release".
      split_and!; [unfold output_dirs; set_solver | done | done].
  - apply list_elem_of_join in Hin as (l & Hin & Hl).
    apply list_elem_of_fmap in Hl as (pat & -> & Hpat).
    unfold fs_glob in Hin. apply list_elem_of_filter in Hin as [Hmatch _].
    by eapply glob_match_package.
Qed.

(** ** Paths of packages *)

Lemma join_cons sep x y (l : list string) :
  Str.join sep (x :: y :: l) = x +:+ sep +:+ Str.join sep (y :: l).
Proof. reflexivity. Qed.

Lemma join_snoc sep (l : list string) x :
  l ≠ [] → Str.join sep (l ++ [x]) = Str.join sep l +:+ sep +:+ x.
Proof.
  induction l as [|y l IH]; [done|]. intros _.
  destruct l as [|z l]; [done|].
  change ((y :: z :: l) ++ [x]) with (y :: (z :: l) ++ [x]).
  change ((z :: l) ++ [x]) with (z :: l ++ [x]) at 1.
  rewrite !join_cons.
  change (z :: l ++ [x]) with ((z :: l) ++ [x]).
  rewrite IH by done. by rewrite !append_assoc.
Qed.

Lemma split_join sep (l : list string) :
  l ≠ [] → Forall (λ x, Str.mem sep x = false) l →
  Str.split sep (Str.join (String sep "") l) = l.
Proof.
  induction l as [|x l IH]; [done|]. intros _ Hl.
  apply Forall_cons in Hl as [Hx Hl].
  destruct l as [|y l].
  - by apply split_no_sep.
  - rewrite join_cons.
    change (String sep "" +:+ Str.join (String sep "") (y :: l))
      with (String sep (Str.join (String sep "") (y :: l))).
    rewrite split_append_sep by done. f_equal. by apply IH.
Qed.

Lemma parts_keep (l : list string) :
  Forall (λ x, x ≠ "" ∧ x ≠ ".") l → filter (λ x, x ≠ "" ∧ x ≠ ".") l = l.
Proof.
  induction 1 as [|x l Hx _ IH]; [done|].
  rewrite filter_cons_True by done. by rewrite IH.
Qed.

Lemma package_name_facts stem :
  package_stem stem →
  stem +:+ ".apk" ≠ "" ∧ stem +:+ ".apk" ≠ "."
  ∧ Str.mem "/" (stem +:+ ".apk") = false
  ∧ PurePath.parse_root (stem +:+ ".apk") = ""
  ∧ PurePath.suffix_index (stem +:+ ".apk") = Some (String.length stem).
Proof.
  intros (Hne & Hslash & Hdot).
  destruct stem as [|c stem]; [done|]. rewrite append_cons. split_and!.
  - done.
  - intros [= -> Hs]. done.
  - rewrite <- append_cons, mem_append, Hslash. done.
  - simpl in Hslash. apply orb_false_iff in Hslash as [Hc _].
    unfold PurePath.parse_root.
    destruct (Ascii.eqb_spec "/" c) as [<-|Hc']; [done|].
    destruct c as [[] [] [] [] [] [] [] []]; try done.
  - rewrite <- append_cons. unfold PurePath.suffix_index.
    rewrite (rfind_last "." (String c stem) "apk" 0) by done.
    rewrite length_append. cbn [String.length Nat.add].
    destruct (Nat.ltb_spec 0 (S (String.length stem))); [|lia].
    destruct (Nat.ltb_spec (S (String.length stem)) (S (String.length stem + 4) - 1));
      [done|lia].
Qed.

Lemma output_dirs_facts dir :
  dir ∈ output_dirs →
  dir ≠ [] ∧ Forall (λ x, x ≠ "" ∧ x ≠ ".") dir
  ∧ Forall (λ x, Str.mem "/" x = false) dir
  ∧ ∀ nm, PurePath.parse_root (Str.join "/" (dir ++ [nm])) = "".
Proof.
  unfold output_dirs. intros Hdir. set_unfold in Hdir. destruct_or!; subst.
  all: split_and!; [done | by repeat constructor | by repeat constructor | done].
Qed.

Lemma package_path_parse p dir stem :
  package_path p dir stem →
  p = Str.join "/" dir +:+ "/" +:+ stem +:+ ".apk"
  ∧ PurePath.parse p = {| PurePath.root := ""; PurePath.parts := dir ++ [stem +:+ ".apk"] |}
  ∧ PurePath.to_string (PurePath.parse p) = p.
Proof.
  intros (Hdir & Hstem & Hsplit).
  destruct (output_dirs_facts dir Hdir) as (Hnil & Hkeep & _ & Hroot).
  destruct (package_name_facts stem Hstem) as (Hne & Hnd & _).
  assert (p = Str.join "/" (dir ++ [stem +:+ ".apk"])) as Hp.
  { by rewrite <- Hsplit, join_split. }
  assert (PurePath.parse p
          = {| PurePath.root := ""; PurePath.parts := dir ++ [stem +:+ ".apk"] |}) as Hparse.
  { unfold PurePath.parse. rewrite Hsplit. f_equal.
    - rewrite Hp. apply Hroot.
    - apply parts_keep. apply Forall_app. split; [done|]. by repeat constructor. }
  split_and!.
  - by rewrite Hp, join_snoc.
  - done.
  - rewrite Hparse. unfold PurePath.to_string. cbn [PurePath.root PurePath.parts].
    destruct (dir ++ [stem +:+ ".apk"]) eqn:Hl.
    + by destruct dir.
    + by rewrite append_nil_l.
Qed.

Lemma package_path_components p dir stem :
  package_path p dir stem →
  PurePath.name (PurePath.parse p) = stem +:+ ".apk"
  ∧ PurePath.stem (PurePath.parse p) = stem
  ∧ PurePath.suffix (PurePath.parse p) = ".apk"
  ∧ PurePath.parent (PurePath.parse p) = {| PurePath.root := ""; PurePath.parts := dir |}
  ∧ PurePath.to_string (PurePath.parent (PurePath.parse p)) = Str.join "/" dir.
Proof.
  intros Hp. pose proof Hp as (Hdir & Hstem & _).
  destruct (package_path_parse p dir stem Hp) as (_ & Hparse & _).
  destruct (package_name_facts stem Hstem) as (_ & _ & _ & _ & Hidx).
  destruct (output_dirs_facts dir Hdir) as (Hnil & _).
  assert (PurePath.name (PurePath.parse p) = stem +:+ ".apk") as Hname.
  { rewrite Hparse. unfold PurePath.name. cbn [PurePath.parts]. apply last_last. }
  split_and!.
  - done.
  - unfold PurePath.stem. rewrite Hname, Hidx. apply take_append.
  - unfold PurePath.suffix. rewrite Hname, Hidx. apply drop_append.
  - rewrite Hparse. unfold PurePath.parent. cbn [PurePath.root PurePath.parts].
    by rewrite removelast_last.
  - rewrite Hparse. unfold PurePath.parent, PurePath.to_string.
    cbn [PurePath.root PurePath.parts]. rewrite removelast_last.
    destruct dir; [done|]. by rewrite append_nil_l.
Qed.

Lemma package_path_join dir stem :
  dir ∈ output_dirs → package_stem stem →
  package_path (Str.join "/" (dir ++ [stem +:+ ".apk"])) dir stem.
Proof.
  intros Hdir Hstem. split_and!; [done..|].
  destruct (output_dirs_facts dir Hdir) as (_ & _ & Hslash & _).
  destruct (package_name_facts stem Hstem) as (_ & _ & Hnm & _).
  apply (split_join "/").
  - by destruct dir.
  - apply Forall_app. split; [done|]. by repeat constructor.
Qed.

Lemma joinpath_package dir stem :
  dir ∈ output_dirs → package_stem stem →
  PurePath.to_string
    (PurePath.joinpath {| PurePath.root := ""; PurePath.parts := dir |} (stem +:+ ".apk"))
  = Str.join "/" (dir ++ [stem +:+ ".apk"]).
Proof.
  intros Hdir Hstem.
  destruct (package_name_facts stem Hstem) as (Hne & Hnd & Hslash & Hroot & _).
  unfold PurePath.joinpath, PurePath.parse. rewrite Hroot.
  cbn [Str.nonempty PurePath.root PurePath.parts].
  rewrite split_no_sep by done. rewrite parts_keep by (by repeat constructor).
  unfold PurePath.to_string. cbn [PurePath.root PurePath.parts].
  destruct (dir ++ [stem +:+ ".apk"]) eqn:Hl.
  - by destruct dir.
  - by rewrite append_nil_l.
Qed.

(** ** The timestamp *)

Local Open Scope Z_scope.

Lemma digit_cases n :
  digit n = "0"%char ∨ digit n = "1"%char ∨ digit n = "2"%char ∨ digit n = "3"%char
  ∨ digit n = "4"%char ∨ digit n = "5"%char ∨ digit n = "6"%char ∨ digit n = "7"%char
  ∨ digit n = "8"%char ∨ digit n = "9"%char.
Proof.
  unfold digit. pose proof (Z.mod_pos_bound n 10 eq_refl) as Hk.
  assert (n mod 10 = 0 ∨ n mod 10 = 1 ∨ n mod 10 = 2 ∨ n mod 10 = 3 ∨ n mod 10 = 4
          ∨ n mod 10 = 5 ∨ n mod 10 = 6 ∨ n mod 10 = 7 ∨ n mod 10 = 8 ∨ n mod 10 = 9)
    as Hcases by lia.
  destruct_or!; rewrite Hcases; tauto.
Qed.

Lemma digit_is_digit n : is_digit (digit n) = true.
Proof. destruct (digit_cases n) as [H|H]; destruct_or?; by rewrite H. Qed.

Lemma digit_not_slash n : Ascii.eqb "/" (digit n) = false.
Proof. destruct (digit_cases n) as [H|H]; destruct_or?; by rewrite H. Qed.

Lemma digit_inj a b : digit a = digit b → a mod 10 = b mod 10.
Proof.
  unfold digit. intros H.
  pose proof (Z.mod_pos_bound a 10 eq_refl).
  pose proof (Z.mod_pos_bound b 10 eq_refl).
  apply (f_equal N_of_ascii) in H.
  rewrite !N_ascii_embedding in H by lia. lia.
Qed.

Lemma strftime_eq d :
  strftime_Ymd_HMS d
  = String (digit (year d / 1000)) (String (digit (year d / 100))
      (String (digit (year d / 10)) (String (digit (year d))
      (String (digit (month d / 10)) (String (digit (month d))
      (String (digit (day d / 10)) (String (digit (day d))
      (String "_"
      (String (digit (hour d / 10)) (String (digit (hour d))
      (String (digit (minute d / 10)) (String (digit (minute d))
      (String (digit (second d / 10)) (String (digit (second d)) "")))))))))))))).
Proof. reflexivity. Qed.

Lemma all_digits_append a b : all_digits (a +:+ b) = all_digits a && all_digits b.
Proof.
  induction a as [|c a IH]; [done|]. rewrite append_cons. cbn [all_digits].
  by rewrite IH, andb_assoc.
Qed.

Lemma all_digits_pad2 n : all_digits (pad2 n) = true.
Proof. unfold pad2. cbn [all_digits]. by rewrite !digit_is_digit. Qed.

Lemma all_digits_pad4 n : all_digits (pad4 n) = true.
Proof.
  unfold pad4. cbn [all_digits]. by rewrite !digit_is_digit, all_digits_pad2.
Qed.

Lemma strftime_shaped d : timestamp_shaped (strftime_Ymd_HMS d).
Proof.
  exists (pad4 (year d) +:+ pad2 (month d) +:+ pad2 (day d)),
         (pad2 (hour d) +:+ pad2 (minute d) +:+ pad2 (second d)).
  split_and!; try reflexivity.
  - by rewrite !all_digits_append, all_digits_pad4, !all_digits_pad2.
  - by rewrite !all_digits_append, !all_digits_pad2.
Qed.

Lemma strftime_no_slash d : Str.mem "/" (strftime_Ymd_HMS d) = false.
Proof. rewrite strftime_eq. cbn [Str.mem]. by rewrite !digit_not_slash. Qed.

Lemma two_digits_inj a b :
  0 ≤ a < 100 → 0 ≤ b < 100 →
  (a / 10) mod 10 = (b / 10) mod 10 → a mod 10 = b mod 10 → a = b.
Proof. intros. Z.to_euclidean_division_equations. lia. Qed.

Lemma four_digits_inj a b :
  0 ≤ a < 10000 → 0 ≤ b < 10000 →
  (a / 1000) mod 10 = (b / 1000) mod 10 → (a / 100) mod 10 = (b / 100) mod 10 →
  (a / 10) mod 10 = (b / 10) mod 10 → a mod 10 = b mod 10 → a = b.
Proof. intros. Z.to_euclidean_division_equations. lia. Qed.

Lemma days_in_month_bound y m : days_in_month y m ≤ 31.
Proof.
  unfold days_in_month.
  destruct m as [|[[[|[]|]|[[]|[]|]|]|[[|[]|]|[[]|[]|]|]|]|]; try lia;
    destruct (is_leap y); lia.
Qed.

Lemma strftime_inj d1 d2 :
  valid_datetime d1 → valid_datetime d2 →
  strftime_Ymd_HMS d1 = strftime_Ymd_HMS d2 →
  year d1 = year d2 ∧ month d1 = month d2 ∧ day d1 = day d2
  ∧ hour d1 = hour d2 ∧ minute d1 = minute d2 ∧ second d1 = second d2.
Proof.
  intros (Hy1 & Hm1 & Hd1 & Hh1 & Hmi1 & Hs1 & _) (Hy2 & Hm2 & Hd2 & Hh2 & Hmi2 & Hs2 & _).
  pose proof (days_in_month_bound (year d1) (month d1)).
  pose proof (days_in_month_bound (year d2) (month d2)).
  rewrite !strftime_eq. intros Heq.
  injection Heq as Y1 Y2 Y3 Y4 M1 M2 D1 D2 h1 h2 m1 m2 s1 s2.
  apply digit_inj in Y1, Y2, Y3, Y4, M1, M2, D1, D2, h1, h2, m1, m2, s1, s2.
  split_and!.
  - apply four_digits_inj; lia.
  - apply two_digits_inj; lia.
  - apply two_digits_inj; lia.
  - apply two_digits_inj; lia.
  - apply two_digits_inj; lia.
  - apply two_digits_inj; lia.
Qed.

Lemma new_filename_of_distinct apk_path d1 d2 :
  valid_datetime d1 → valid_datetime d2 →
  to_microseconds d1 + 1000000 < to_microseconds d2 →
  new_filename_of apk_path d1 ≠ new_filename_of apk_path d2.
Proof.
  intros Hv1 Hv2 Hgap Heq. unfold new_filename_of in Heq.
  apply (inj _) in Heq. apply (inj _) in Heq.
  apply append_inv_tail in Heq.
  destruct (strftime_inj d1 d2 Hv1 Hv2 Heq) as (Hy & Hm & Hd & Hh & Hmi & Hs).
  unfold to_microseconds, toordinal in Hgap.
  rewrite Hy, Hm, Hd, Hh, Hmi, Hs in Hgap.
  destruct Hv1 as (_ & _ & _ & _ & _ & _ & Hus1).
  destruct Hv2 as (_ & _ & _ & _ & _ & _ & Hus2). lia.
Qed.

Local Close Scope Z_scope.

(** ** The versioning stage *)

Lemma versioned_stem stem d :
  package_stem stem → package_stem (stem +:+ "_" +:+ strftime_Ymd_HMS d).
Proof.
  intros (Hne & Hslash & Hdot). destruct stem as [|c stem]; [done|]. split_and!.
  - done.
  - rewrite !mem_append, Hslash, strftime_no_slash. done.
  - done.
Qed.

Section Versioning.
Context (env : Env).

(** The stage on the path of a package that is on disk. *)
Lemma rename_package apk_path build_type w dir stem content :
  package_path apk_path dir stem →
  fs_lookup (fs w) apk_path = Some content →
  let d := now env (trace w) in
  let new_filename := stem +:+ "_" +:+ strftime_Ymd_HMS d +:+ ".apk" in
  let new_path := Str.join "/" dir +:+ "/" +:+ new_filename in
  new_filename_of apk_path d = new_filename
  ∧ package_path new_path dir (stem +:+ "_" +:+ strftime_Ymd_HMS d)
  ∧ new_path ≠ apk_path
  ∧ ∃ fs',
      fs_rename apk_path new_path (fs w) = Some fs'
      ∧ rename_apk_with_version env apk_path build_type w
        = (Ok new_path,
           {| fs := fs';
              trace := trace w ++
                [EvNow d; EvMove apk_path new_path;
                 EvPrint ("🏷️  APK renamed: " +:+ (stem +:+ ".apk")
                          +:+ " -> " +:+ new_filename)] |}).
Proof.
  intros Hp Hcontent d new_filename new_path.
  pose proof Hp as (Hdir & Hstem & _).
  destruct (package_path_parse _ _ _ Hp) as (Hpath & _ & Hstr).
  destruct (package_path_components _ _ _ Hp) as (Hname & Hst & Hsuf & Hparent & _).
  destruct (output_dirs_facts dir Hdir) as (Hnil & _).
  pose proof (versioned_stem stem d Hstem) as Hstem2.
  assert (new_filename_of apk_path d = new_filename) as Hnew.
  { unfold new_filename_of. by rewrite Hst, Hsuf. }
  assert (new_filename = (stem +:+ "_" +:+ strftime_Ymd_HMS d) +:+ ".apk") as Hassoc.
  { unfold new_filename. by rewrite !append_assoc. }
  assert (new_path
          = Str.join "/" (dir ++ [(stem +:+ "_" +:+ strftime_Ymd_HMS d) +:+ ".apk"]))
    as Hjoin.
  { unfold new_path. by rewrite join_snoc, Hassoc. }
  assert (new_path ≠ apk_path) as Hdiff.
  { unfold new_path. rewrite Hpath, Hassoc. intros Heq.
    apply (inj _) in Heq. apply (inj _) in Heq. apply append_inv_tail in Heq.
    apply (f_equal String.length) in Heq.
    rewrite !length_append in Heq. simpl in Heq. lia. }
  split_and!; [done | by rewrite Hjoin; apply package_path_join | done |].
  unfold fs_rename. rewrite Hcontent. eexists. split; [reflexivity|].
  rewrite rename_apk_with_version_eq. cbv zeta. fold d.
  rewrite Hstr, Hparent, Hnew, Hname, Hassoc, joinpath_package by done.
  rewrite <- Hjoin. unfold fs_rename. by rewrite Hcontent.
Qed.

End Versioning.

(** C3. On the path that discovery returned, with the file still on disk,
    the versioning stage reads the clock, returns the path in the same
    directory whose name is the stem, an underscore, the timestamp (eight
    digits, an underscore, six digits: year, month, day, hour, minute,
    second) and the extension, and moves the file to it: the content is
    under the new name, the old name is gone, every other file is as
    before.  The new path has the parent and the suffix of the old one.
    Two readings of the clock more than one second apart give distinct
    names, so two such runs on the same path return distinct paths. *)
Theorem rename_apk_with_version_inserts_timestamp (env : Env) :
  (∀ bt w0 w1 apk_path build_type w content,
     bt = "debug" ∨ bt = "release" →
     find_apk_file bt w0 = (Ok (Some apk_path), w1) →
     fs_lookup (fs w) apk_path = Some content →
     ∃ directory stem fs',
       let d := now env (trace w) in
       let new_filename := stem +:+ "_" +:+ strftime_Ymd_HMS d +:+ ".apk" in
       let new_path := directory +:+ "/" +:+ new_filename in
       apk_path = directory +:+ "/" +:+ stem +:+ ".apk"
       ∧ PurePath.to_string (PurePath.parent (PurePath.parse apk_path)) = directory
       ∧ PurePath.stem (PurePath.parse apk_path) = stem
       ∧ PurePath.suffix (PurePath.parse apk_path) = ".apk"
       ∧ rename_apk_with_version env apk_path build_type w
         = (Ok new_path,
            {| fs := fs';
               trace := trace w ++
                 [EvNow d; EvMove apk_path new_path;
                  EvPrint ("🏷️  APK renamed: " +:+ (stem +:+ ".apk")
                           +:+ " -> " +:+ new_filename)] |})
       ∧ fs_lookup fs' new_path = Some content
       ∧ fs_lookup fs' apk_path = None
       ∧ (∀ q, q ≠ apk_path → q ≠ new_path → fs_lookup fs' q = fs_lookup (fs w) q)
       ∧ PurePath.parent (PurePath.parse new_path)
         = PurePath.parent (PurePath.parse apk_path)
       ∧ PurePath.suffix (PurePath.parse new_path)
         = PurePath.suffix (PurePath.parse apk_path))
  ∧ (∀ d, timestamp_shaped (strftime_Ymd_HMS d))
  ∧ (∀ apk_path d1 d2,
       valid_datetime d1 → valid_datetime d2 →
       (to_microseconds d1 + 1000000 < to_microseconds d2)%Z →
       new_filename_of apk_path d1 ≠ new_filename_of apk_path d2)
  ∧ (∀ env' bt w0 w1 apk_path bt1 bt2 wa wb ca cb,
       bt = "debug" ∨ bt = "release" →
       find_apk_file bt w0 = (Ok (Some apk_path), w1) →
       fs_lookup (fs wa) apk_path = Some ca →
       fs_lookup (fs wb) apk_path = Some cb →
       valid_datetime (now env (trace wa)) → valid_datetime (now env' (trace wb)) →
       (to_microseconds (now env (trace wa)) + 1000000
        < to_microseconds (now env' (trace wb)))%Z →
       fst (rename_apk_with_version env apk_path bt1 wa)
       ≠ fst (rename_apk_with_version env' apk_path bt2 wb)).
Proof.
  split_and!.
  - intros bt w0 w1 apk_path build_type w content Hbt Hfind Hcontent.
    destruct (discovered_package bt w0 w1 apk_path Hbt Hfind) as (_ & dir & stem & Hp).
    destruct (rename_package env apk_path build_type w dir stem content Hp Hcontent)
      as (_ & Hp' & Hdiff & fs' & Hrename & Hrun).
    destruct (package_path_parse _ _ _ Hp) as (Hpath & _).
    destruct (package_path_components _ _ _ Hp) as (_ & Hst & Hsuf & Hparent & Hdirstr).
    destruct (package_path_components _ _ _ Hp') as (_ & _ & Hsuf' & Hparent' & _).
    destruct (fs_rename_spec _ _ _ _ Hrename) as (c & Hc & Hnew & Hold & Hrest).
    exists (Str.join "/" dir), stem, fs'. cbv zeta.
    split_and!; try done.
    + congruence.
    + apply Hold. congruence.
    + congruence.
    + congruence.
  - apply strftime_shaped.
  - apply new_filename_of_distinct.
  - intros env' bt w0 w1 apk_path bt1 bt2 wa wb ca cb Hbt Hfind Ha Hb Hva Hvb Hgap.
    destruct (discovered_package bt w0 w1 apk_path Hbt Hfind) as (_ & dir & stem & Hp).
    destruct (rename_package env apk_path bt1 wa dir stem ca Hp Ha)
      as (Hna & _ & _ & fsa & _ & ->).
    destruct (rename_package env' apk_path bt2 wb dir stem cb Hp Hb)
      as (Hnb & _ & _ & fsb & _ & ->).
    cbn [fst]. intros [= Heq]. apply (inj _) in Heq. apply (inj _) in Heq.
    rewrite <- Hna, <- Hnb in Heq.
    by apply (new_filename_of_distinct apk_path _ _ Hva Hvb Hgap).
Qed.

Lemma rename_apk_with_version_inserts_timestamp_witness :
  fst (rename_apk_with_version Sample.env_ok
         "build/app/outputs/flutter-apk/app-debug.apk" "debug"
         (init_world [Sample.package "debug"]))
  = Ok "build/app/outputs/flutter-apk/app-debug_20261104_090507.apk"
  ∧ new_filename_of "build/app/outputs/flutter-apk/app-debug.apk" Sample.reading
    ≠ new_filename_of "build/app/outputs/flutter-apk/app-debug.apk"
        (mkdatetime 2026 11 4 9 5 9 0).
Proof.
  destruct (rename_apk_with_version_inserts_timestamp Sample.env_ok)
    as (Hstage & _ & Hdistinct & _).
  split.
  - destruct (Hstage "debug" (init_world [Sample.package "debug"])
                (snd (find_apk_file "debug" (init_world [Sample.package "debug"])))
                "build/app/outputs/flutter-apk/app-debug.apk" "debug"
                (init_world [Sample.package "debug"]) "PK")
      as (directory & stem & fs' & _ & Hd & Hs & _ & Hrun & _).
    + by left.
    + by vm_compute.
    + by vm_compute.
    + cbv zeta in Hrun. rewrite Hrun. vm_compute in Hd. vm_compute in Hs.
      subst directory stem. by vm_compute.
  - apply Hdistinct.
    + vm_compute. repeat split; congruence.
    + vm_compute. repeat split; congruence.
    + by vm_compute.
Defined.

Lemma surjective_pairing_fst {A B} (x : A * B) a : fst x = a → x = (a, snd x).
Proof. intros <-. by destruct x. Qed.

(** * Further properties of the script *)

(** ** The name that versioning gives, for any path *)

Lemma append_empty_r s : s +:+ "" = s.
Proof. induction s as [|c s IH]; [done|]. by rewrite append_cons, IH. Qed.

Lemma str_take_drop i s :
  i ≤ String.length s → Str.take i s +:+ Str.drop i s = s.
Proof.
  unfold Str.take, Str.drop. revert i. induction s as [|c s IH]; intros i Hi.
  - by destruct i.
  - destruct i as [|i].
    + rewrite append_nil_l. simpl. by rewrite substring_all.
    + simpl in *. rewrite append_cons. f_equal. apply IH. lia.
Qed.

Lemma rfind_bound c s i j : Str.rfind c s i = Some j → i ≤ j < i + String.length s.
Proof.
  revert i. induction s as [|d s IH]; intros i; [done|]. simpl.
  destruct (Str.rfind c s (S i)) as [k|] eqn:Hk.
  - intros [= <-]. apply IH in Hk. lia.
  - destruct (Ascii.eqb c d); [|done]. intros [= <-]. lia.
Qed.

Lemma name_no_slash apk_path :
  Str.mem "/" (PurePath.name (PurePath.parse apk_path)) = false.
Proof.
  unfold PurePath.name, PurePath.parse. cbn [PurePath.parts].
  pose proof (split_no_sep_in "/" apk_path) as Hparts.
  assert (Forall (λ x, Str.mem "/" x = false)
            (filter (λ x, x ≠ "" ∧ x ≠ ".") (Str.split "/" apk_path))) as Hf.
  { apply Forall_forall. intros x [_ Hx]%list_elem_of_filter.
    by eapply Forall_forall in Hparts. }
  generalize dependent (filter (λ x : string, x ≠ "" ∧ x ≠ ".") (Str.split "/" apk_path)).
  intros l Hl. induction Hl as [|x l Hx Hl IH]; [done|].
  destruct l; [done|]. exact IH.
Qed.

(** X1. For any path, the new file name is the old one with an underscore
    and the timestamp put in before the suffix, sixteen characters longer;
    a name without a dot gets them at its end; the new name has no slash. *)
Theorem new_filename_of_any_path (apk_path : string) (d : datetime) :
  let name := PurePath.name (PurePath.parse apk_path) in
  let stem := PurePath.stem (PurePath.parse apk_path) in
  let extension := PurePath.suffix (PurePath.parse apk_path) in
  stem +:+ extension = name
  ∧ new_filename_of apk_path d = stem +:+ "_" +:+ strftime_Ymd_HMS d +:+ extension
  ∧ String.length (new_filename_of apk_path d) = String.length name + 16
  ∧ (Str.mem "." name = false →
     new_filename_of apk_path d = name +:+ "_" +:+ strftime_Ymd_HMS d)
  ∧ Str.mem "/" (new_filename_of apk_path d) = false.
Proof.
  intros name stem extension.
  assert (stem +:+ extension = name) as Hname.
  { unfold stem, extension, PurePath.stem, PurePath.suffix. fold name.
    unfold PurePath.suffix_index.
    destruct (Str.rfind "." name 0) as [i|] eqn:Hi; [|by rewrite append_empty_r].
    apply rfind_bound in Hi.
    destruct ((0 <? i) && (i <? String.length name - 1)); [|by rewrite append_empty_r].
    apply str_take_drop. lia. }
  split_and!.
  - done.
  - done.
  - unfold new_filename_of. fold stem. fold extension.
    rewrite <- Hname, !length_append, strftime_eq. simpl. lia.
  - intros Hdot. unfold new_filename_of. fold stem. fold extension.
    assert (extension = "") as ->.
    { unfold extension, PurePath.suffix, PurePath.suffix_index. fold name.
      by rewrite (rfind_none _ _ _ Hdot). }
    rewrite append_empty_r in *. by rewrite Hname.
  - unfold new_filename_of. fold stem. fold extension.
    pose proof (name_no_slash apk_path) as Hslash. fold name in Hslash.
    rewrite <- Hname, mem_append in Hslash. apply orb_false_iff in Hslash as [H1 H2].
    by rewrite !mem_append, H1, H2, strftime_no_slash.
Qed.

(** ** A versioned package is a candidate of the next discovery *)

Lemma fnmatch_star_intro pat a b :
  fnmatch pat b = true → fnmatch (String "*" pat) (a +:+ b) = true.
Proof.
  intros Hb. induction a as [|c a IH]; rewrite fnmatch_star.
  - by rewrite append_nil_l, Hb.
  - by rewrite append_cons, IH, orb_true_r.
Qed.

Lemma fnmatch_dot_apk_insert pre s x :
  fnmatch (pre +:+ "*.apk") (s +:+ ".apk") = true →
  fnmatch (pre +:+ "*.apk") (s +:+ x +:+ ".apk") = true.
Proof.
  revert s. induction pre as [|c pre IH]; intros s.
  - intros _. rewrite append_nil_l, <- append_assoc. by apply fnmatch_star_intro.
  - rewrite append_cons.
    destruct (Ascii.eqb c "*") eqn:Hstar.
    { apply Ascii.eqb_eq in Hstar as ->.
      intros (a & b & Hs & Hb)%fnmatch_star_inv.
      destruct (fnmatch_dot_apk _ _ Hb) as [t ->].
      rewrite <- append_assoc in Hs. apply append_inv_tail in Hs as ->.
      rewrite append_assoc. apply fnmatch_star_intro. by apply IH. }
    destruct (Ascii.eqb c "?") eqn:Hq.
    { apply Ascii.eqb_eq in Hq as ->.
      destruct s as [|e s]; [|rewrite !append_cons; apply IH].
      rewrite append_nil_l. cbn [append]. simpl. intros H.
      apply fnmatch_dot_apk in H as [t Ht].
      apply (f_equal String.length) in Ht. rewrite length_append in Ht.
      simpl in Ht. lia. }
    rewrite !fnmatch_char by done.
    destruct s as [|e s].
    + rewrite append_nil_l. cbn [append].
      intros [Hc H]%andb_true_iff. apply Ascii.eqb_eq in Hc as ->.
      apply fnmatch_dot_apk in H as [t Ht].
      apply (f_equal String.length) in Ht. rewrite length_append in Ht.
      simpl in Ht. lia.
    + rewrite !append_cons. intros [-> H]%andb_true_iff. by apply IH.
Qed.

Lemma glob_components_last_match pats pat nms nm :
  glob_components (pats ++ [pat]) (nms ++ [nm]) = true →
  glob_component pat nm = true.
Proof.
  revert nms. induction pats as [|p pats IH]; intros [|n nms];
    cbn [app glob_components].
  - by rewrite andb_true_r.
  - destruct nms; cbn; by rewrite andb_false_r.
  - destruct pats; cbn; by rewrite andb_false_r.
  - intros [_ H]%andb_true_iff. by eapply IH.
Qed.

Lemma glob_components_replace_last pats pat nms nm nm' :
  glob_components (pats ++ [pat]) (nms ++ [nm]) = true →
  glob_component pat nm' = true →
  glob_components (pats ++ [pat]) (nms ++ [nm']) = true.
Proof.
  intros H Hnm'. revert nms H.
  induction pats as [|p pats IH]; intros [|n nms]; cbn [app glob_components].
  - by rewrite Hnm'.
  - destruct nms; cbn; by rewrite andb_false_r.
  - destruct pats; cbn; by rewrite andb_false_r.
  - intros [-> H]%andb_true_iff. by apply IH.
Qed.

Lemma fs_exists_in (fs0 : filesystem) p : fs_exists fs0 p = true → p ∈ fs0.*1.
Proof.
  unfold fs_exists. induction fs0 as [|[q c] fs0 IH]; simpl; [done|].
  destruct (String.eqb q p) eqn:Hq.
  - apply String.eqb_eq in Hq as ->. intros _. apply list_elem_of_here.
  - intros H. apply list_elem_of_further. by apply IH.
Qed.

(** The alternative patterns end with a component of the form
    [pre*.apk]. *)
Lemma alt_patterns_shape build_type pattern :
  build_type = "debug" ∨ build_type = "release" →
  pattern ∈ alt_patterns build_type →
  ∃ pats pre, Str.split "/" pattern = pats ++ [pre +:+ "*.apk"]
              ∧ Str.starts_with "." (pre +:+ "*.apk") = false.
Proof.
  intros Hbt Hpat. destruct Hbt as [-> | ->]; unfold alt_patterns in Hpat;
    set_unfold in Hpat; destruct_or!; subst pattern.
  - by exists ["build"; "app"; "outputs"; "flutter-apk"], "*debug".
  - by exists ["build"; "app"; "outputs"; "apk"; "debug"], "".
  - by exists ["build"; "app"; "outputs"; "flutter-apk"], "*release".
  - by exists ["build"; "app"; "outputs"; "apk"; "release"], "".
Qed.

Lemma versioned_matches build_type pattern p dir stem d :
  build_type = "debug" ∨ build_type = "release" →
  pattern ∈ alt_patterns build_type →
  package_path p dir stem →
  glob_match pattern p = true →
  glob_match pattern
    (Str.join "/" dir +:+ "/" +:+ stem +:+ "_" +:+ strftime_Ymd_HMS d +:+ ".apk") = true.
Proof.
  intros Hbt Hpat Hp Hmatch.
  destruct (alt_patterns_shape _ _ Hbt Hpat) as (pats & pre & Hsplit & Hdot).
  pose proof Hp as (Hdir & Hstem & Hparts).
  pose proof (versioned_stem stem d Hstem) as Hstem2.
  pose proof (package_path_join dir _ Hdir Hstem2) as (_ & _ & Hparts2).
  destruct (output_dirs_facts dir Hdir) as (Hnil & _).
  rewrite join_snoc in Hparts2 by done.
  rewrite !append_assoc in Hparts2.
  unfold glob_match in *. rewrite Hsplit, Hparts in Hmatch.
  rewrite Hsplit, Hparts2.
  eapply glob_components_replace_last; [exact Hmatch|].
  apply glob_components_last_match in Hmatch.
  unfold glob_component in *. rewrite Hdot, orb_false_r in *.
  apply andb_true_iff in Hmatch as [_ Hfn].
  destruct Hstem as (Hne & _ & Hhid).
  destruct stem as [|c stem]; [done|].
  apply andb_true_iff. split.
  - rewrite append_cons. unfold Str.starts_with in *. by rewrite Hhid.
  - rewrite <- (append_assoc "_"). by apply fnmatch_dot_apk_insert.
Qed.

Section Rediscovery.
Context (env : Env).

(** X2. The package that discovery returned, once versioned, matches an
    alternative pattern of the same variant: on any file system that holds
    the versioned file, discovery for that variant returns a path and never
    its not-found signal, whatever the build has left. *)
Theorem versioned_package_rediscovered
    (build_type other : string) (w0 w1 w w' : World) (p q : string) :
  build_type = "debug" ∨ build_type = "release" →
  find_apk_file build_type w0 = (Ok (Some p), w1) →
  rename_apk_with_version env p other w = (Ok q, w') →
  (∃ pattern, pattern ∈ alt_patterns build_type ∧ glob_match pattern q = true)
  ∧ ∀ w2 : World, fs_exists (fs w2) q = true →
      ∃ q' w3, find_apk_file build_type w2 = (Ok (Some q'), w3)
               ∧ fs_exists (fs w2) q' = true.
Proof.
  intros Hbt Hfind Hrename.
  assert (∃ pattern dir stem, pattern ∈ alt_patterns build_type
            ∧ package_path p dir stem ∧ glob_match pattern p = true)
    as (pattern & dir & stem & Hpat & Hp & Hmatch).
  { destruct (find_apk_file_eq build_type w0 Hbt) as (tr & Heq & _).
    rewrite Heq in Hfind. injection Hfind as Hfound _.
    apply find_some_elem in Hfound as [Hin _].
    unfold candidates in Hin. apply elem_of_cons in Hin as [-> | Hin].
    - destruct Hbt as [-> | ->].
      + exists "build/app/outputs/flutter-apk/*debug*.apk",
          ["build"; "app"; "outputs"; "flutter-apk"], "app-debug".
        split_and!; [unfold alt_patterns; set_solver | | done].
        split_and!; [unfold output_dirs; set_solver | done | done].
      + exists "build/app/outputs/flutter-apk/*release*.apk",
          ["build"; "app"; "outputs"; "flutter-apk"], "app-release".
        split_and!; [unfold alt_patterns; set_solver | | done].
        split_and!; [unfold output_dirs; set_solver | done | done].
    - apply list_elem_of_join in Hin as (l & Hin & Hl).
      apply list_elem_of_fmap in Hl as (pat & -> & Hpat).
      unfold fs_glob in Hin. apply list_elem_of_filter in Hin as [Hmatch _].
      destruct (glob_match_package _ _ _ Hbt Hpat Hmatch) as (dir & stem & Hp).
      by exists pat, dir, stem. }
  assert (q = Str.join "/" dir +:+ "/" +:+ stem +:+ "_"
              +:+ strftime_Ymd_HMS (now env (trace w)) +:+ ".apk") as ->.
  { rewrite rename_apk_with_version_eq in Hrename. cbv zeta in Hrename.
    destruct (package_path_parse _ _ _ Hp) as (_ & _ & Hstr).
    rewrite Hstr in Hrename.
    destruct (fs_lookup (fs w) p) as [content|] eqn:Hcontent.
    - destruct (rename_package env p other w dir stem content Hp Hcontent)
        as (_ & _ & _ & fs' & _ & Hrun).
      rewrite rename_apk_with_version_eq in Hrun. cbv zeta in Hrun.
      rewrite Hstr in Hrun. rewrite Hrun in Hrename. by injection Hrename as <- _.
    - unfold fs_rename in Hrename. by rewrite Hcontent in Hrename. }
  pose proof (versioned_matches _ _ _ _ _ (now env (trace w)) Hbt Hpat Hp Hmatch)
    as Hmatch2.
  split; [by exists pattern|]. intros w2 Hq.
  destruct (find_apk_file_eq build_type w2 Hbt) as (tr & Heq & _).
  rewrite Heq.
  destruct (List.find (fs_exists (fs w2)) (candidates build_type (fs w2)))
    as [q'|] eqn:Hfound.
  - apply find_some_elem in Hfound as [_ Hq']. eauto.
  - exfalso. apply find_none_iff in Hfound.
    eapply Forall_forall in Hfound.
    + by rewrite Hq in Hfound.
    + unfold candidates. apply list_elem_of_further, list_elem_of_join.
      eexists. split; [|apply list_elem_of_fmap; eexists; split; [reflexivity|exact Hpat]].
      unfold fs_glob. apply list_elem_of_filter. split; [done|]. by apply fs_exists_in.
Qed.

End Rediscovery.

Lemma versioned_package_rediscovered_witness :
  ∃ pattern, pattern ∈ alt_patterns "release"
    ∧ glob_match pattern
        "build/app/outputs/flutter-apk/app-release_20261104_090507.apk" = true.
Proof.
  eapply proj1,
    (versioned_package_rediscovered Sample.env_ok "release" "release"
       (init_world [Sample.package "release"]) _
       (init_world [Sample.package "release"]) _
       "build/app/outputs/flutter-apk/app-release.apk").
  - by right.
  - apply surjective_pairing_fst. by vm_compute.
  - apply surjective_pairing_fst. by vm_compute.
Defined.

(** ** Discovery returns packages of the variant only *)

Lemma fnmatch_literal_inv lit pat nm :
  no_wildcard lit = true → fnmatch (lit +:+ pat) nm = true →
  ∃ b, nm = lit +:+ b ∧ fnmatch pat b = true.
Proof.
  unfold no_wildcard. revert nm. induction lit as [|c lit IH]; intros nm.
  - intros _ H. by exists nm.
  - rewrite !mem_cons, !negb_orb.
    intros [[Hstar Hlit1]%andb_true_iff [Hq Hlit2]%andb_true_iff]%andb_true_iff.
    apply negb_true_iff in Hstar, Hq.
    rewrite Ascii.eqb_sym in Hstar. rewrite Ascii.eqb_sym in Hq.
    rewrite append_cons, fnmatch_char by done. destruct nm as [|d nm]; [done|].
    intros [->%Ascii.eqb_eq Hnm]%andb_true_iff.
    destruct (IH nm) as (b & -> & Hb); [by rewrite Hlit1, Hlit2 | done |].
    by exists b.
Qed.

Lemma fnmatch_tagged tag nm :
  no_wildcard tag = true →
  fnmatch ("*" +:+ tag +:+ "*.apk") nm = true →
  ∃ a b, nm = (a +:+ tag +:+ b) +:+ ".apk".
Proof.
  intros Htag (a & rest & -> & Hrest)%fnmatch_star_inv.
  apply fnmatch_literal_inv in Hrest as (rest' & -> & Hrest'); [|done].
  apply (fnmatch_dot_apk "") in Hrest' as [b ->].
  exists a, b. by rewrite !append_assoc.
Qed.

(** X3. Discovery returns packages of its variant only: a path in one of
    the output directories, with a name that ends in [.apk] and does not
    start with a dot, which is either in [flutter-apk] with the variant in
    its name, or in the [apk] directory of the variant. *)
Theorem find_apk_file_variant_tagged (build_type : string) (w0 w1 : World) (p : string) :
  build_type = "debug" ∨ build_type = "release" →
  find_apk_file build_type w0 = (Ok (Some p), w1) →
  ∃ dir stem,
    package_path p dir stem
    ∧ ((dir = ["build"; "app"; "outputs"; "flutter-apk"]
        ∧ ∃ a b, stem = a +:+ build_type +:+ b)
       ∨ dir = ["build"; "app"; "outputs"; "apk"; build_type]).
Proof.
  intros Hbt Hfind.
  destruct (find_apk_file_eq build_type w0 Hbt) as (tr & Heq & _).
  rewrite Heq in Hfind. injection Hfind as Hfound _.
  apply find_some_elem in Hfound as [Hin _].
  unfold candidates in Hin. apply elem_of_cons in Hin as [-> | Hin].
  - exists ["build"; "app"; "outputs"; "flutter-apk"], ("app-" +:+ build_type).
    split.
    + destruct Hbt as [-> | ->];
        (split_and!; [unfold output_dirs; set_solver | done | done]).
    + left. split; [done|]. exists "app-", "". by rewrite append_empty_r.
  - apply list_elem_of_join in Hin as (l & Hin & Hl).
    apply list_elem_of_fmap in Hl as (pattern & -> & Hpat).
    unfold fs_glob in Hin. apply list_elem_of_filter in Hin as [Hmatch _].
    destruct (glob_match_package _ _ _ Hbt Hpat Hmatch) as (dir & stem & Hp).
    exists dir, stem. split; [done|].
    destruct Hp as (_ & _ & Hparts). unfold glob_match in Hmatch.
    rewrite Hparts in Hmatch.
    destruct Hbt as [-> | ->]; unfold alt_patterns in Hpat;
      set_unfold in Hpat; destruct_or!; subst pattern.
    + change (Str.split "/" _)
        with (["build"; "app"; "outputs"; "flutter-apk"] ++ ["*" +:+ "debug" +:+ "*.apk"])
        in Hmatch.
      pose proof (glob_components_last_match _ _ _ _ Hmatch) as Hlast.
      apply andb_true_iff in Hlast as [_ Hfn].
      apply fnmatch_tagged in Hfn as (a & b & Hab%append_inv_tail); [|done].
      left. split; [|by exists a, b].
      apply (glob_components_package ["build"; "app"; "outputs"; "flutter-apk"] "*debug")
        in Hmatch as (stem' & Hdir & _); [| by repeat constructor | done |].
      * by apply app_inj_tail in Hdir as [-> _].
      * rewrite <- Hparts. apply split_no_sep_in.
    + right.
      apply (glob_components_package ["build"; "app"; "outputs"; "apk"; "debug"] "")
        in Hmatch as (stem' & Hdir & _); [| by repeat constructor | done |].
      * by apply app_inj_tail in Hdir as [-> _].
      * rewrite <- Hparts. apply split_no_sep_in.
    + change (Str.split "/" _)
        with (["build"; "app"; "outputs"; "flutter-apk"] ++ ["*" +:+ "release" +:+ "*.apk"])
        in Hmatch.
      pose proof (glob_components_last_match _ _ _ _ Hmatch) as Hlast.
      apply andb_true_iff in Hlast as [_ Hfn].
      apply fnmatch_tagged in Hfn as (a & b & Hab%append_inv_tail); [|done].
      left. split; [|by exists a, b].
      apply (glob_components_package ["build"; "app"; "outputs"; "flutter-apk"] "*release")
        in Hmatch as (stem' & Hdir & _); [| by repeat constructor | done |].
      * by apply app_inj_tail in Hdir as [-> _].
      * rewrite <- Hparts. apply split_no_sep_in.
    + right.
      apply (glob_components_package ["build"; "app"; "outputs"; "apk"; "release"] "")
        in Hmatch as (stem' & Hdir & _); [| by repeat constructor | done |].
      * by apply app_inj_tail in Hdir as [-> _].
      * rewrite <- Hparts. apply split_no_sep_in.
Qed.

Lemma find_apk_file_variant_tagged_witness :
  ∃ dir stem,
    package_path "build/app/outputs/flutter-apk/app-arm64-release.apk" dir stem
    ∧ ((dir = ["build"; "app"; "outputs"; "flutter-apk"]
        ∧ ∃ a b, stem = a +:+ "release" +:+ b)
       ∨ dir = ["build"; "app"; "outputs"; "apk"; "release"]).
Proof.
  apply (find_apk_file_variant_tagged "release" (init_world Sample.two_matches)
           (snd (find_apk_file "release" (init_world Sample.two_matches)))).
  - by right.
  - apply surjective_pairing_fst. by vm_compute.
Defined.

(** ** The names of successive versions sort by time *)

Local Open Scope Z_scope.

Lemma compare_digit a b :
  Ascii.compare (digit a) (digit b) = (a mod 10 ?= b mod 10).
Proof.
  unfold Ascii.compare, digit.
  pose proof (Z.mod_pos_bound a 10 eq_refl).
  pose proof (Z.mod_pos_bound b 10 eq_refl).
  rewrite !N_ascii_embedding by lia.
  rewrite (Z2N.inj_compare (48 + a mod 10) (48 + b mod 10)) by lia.
  apply Z.add_compare_mono_l.
Qed.

Lemma two_digits a :
  0 ≤ a < 100 →
  ∃ a1 a0, a = 10 * a1 + a0 ∧ 0 ≤ a1 < 10 ∧ 0 ≤ a0 < 10
           ∧ (a / 10) mod 10 = a1 ∧ a mod 10 = a0.
Proof.
  intros Ha. exists (a / 10), (a mod 10).
  Z.to_euclidean_division_equations. lia.
Qed.

Lemma four_digits a :
  0 ≤ a < 10000 →
  ∃ a3 a2 a1 a0,
    a = 1000 * a3 + 100 * a2 + 10 * a1 + a0
    ∧ 0 ≤ a3 < 10 ∧ 0 ≤ a2 < 10 ∧ 0 ≤ a1 < 10 ∧ 0 ≤ a0 < 10
    ∧ (a / 1000) mod 10 = a3 ∧ (a / 100) mod 10 = a2
    ∧ (a / 10) mod 10 = a1 ∧ a mod 10 = a0.
Proof.
  intros Ha. exists (a / 1000), ((a / 100) mod 10), ((a / 10) mod 10), (a mod 10).
  Z.to_euclidean_division_equations. lia.
Qed.

Ltac compare_cases :=
  repeat match goal with
         | |- context [(?x ?= ?y)] =>
             destruct (Z.compare_spec x y); cbn [then_compare]
         end;
  first [ reflexivity | lia ].

Lemma compare_pad2 a b s t :
  0 ≤ a < 100 → 0 ≤ b < 100 →
  String.compare (pad2 a +:+ s) (pad2 b +:+ t)
  = then_compare (a ?= b) (String.compare s t).
Proof.
  intros Ha Hb.
  destruct (two_digits a Ha) as (a1 & a0 & -> & ? & ? & Ha1 & Ha0).
  destruct (two_digits b Hb) as (b1 & b0 & -> & ? & ? & Hb1 & Hb0).
  unfold pad2. rewrite !append_cons, !append_nil_l. cbn [String.compare].
  rewrite !compare_digit, Ha1, Ha0, Hb1, Hb0.
  compare_cases.
Qed.

Lemma compare_pad4 a b s t :
  0 ≤ a < 10000 → 0 ≤ b < 10000 →
  String.compare (pad4 a +:+ s) (pad4 b +:+ t)
  = then_compare (a ?= b) (String.compare s t).
Proof.
  intros Ha Hb.
  destruct (four_digits a Ha) as (a3 & a2 & a1 & a0 & -> & ? & ? & ? & ? & Ha3 & Ha2 & Ha1 & Ha0).
  destruct (four_digits b Hb) as (b3 & b2 & b1 & b0 & -> & ? & ? & ? & ? & Hb3 & Hb2 & Hb1 & Hb0).
  unfold pad4, pad2. rewrite !append_cons, !append_nil_l. cbn [String.compare].
  rewrite !compare_digit, Ha3, Ha2, Ha1, Ha0, Hb3, Hb2, Hb1, Hb0.
  compare_cases.
Qed.

Local Close Scope Z_scope.

Lemma compare_same_prefix p s t :
  String.compare (p +:+ s) (p +:+ t) = String.compare s t.
Proof.
  induction p as [|c p IH]; [done|]. rewrite !append_cons. cbn [String.compare].
  unfold Ascii.compare. by rewrite N.compare_refl.
Qed.

Lemma compare_same_suffix s t e :
  String.length s = String.length t →
  String.compare (s +:+ e) (t +:+ e) = String.compare s t.
Proof.
  revert t. induction s as [|c s IH]; intros [|d t] Hlen; try done.
  - rewrite !append_nil_l. rewrite <- (append_empty_r e) at 1 2.
    apply (compare_same_prefix e "" "").
  - rewrite !append_cons. cbn [String.compare].
    rewrite IH by (simpl in Hlen; lia). done.
Qed.

Lemma strftime_compare d1 d2 :
  valid_datetime d1 → valid_datetime d2 →
  String.compare (strftime_Ymd_HMS d1) (strftime_Ymd_HMS d2) = compare_seconds d1 d2.
Proof.
  intros (Hy1 & Hm1 & Hd1 & Hh1 & Hmi1 & Hs1 & _) (Hy2 & Hm2 & Hd2 & Hh2 & Hmi2 & Hs2 & _).
  pose proof (days_in_month_bound (year d1) (month d1)).
  pose proof (days_in_month_bound (year d2) (month d2)).
  unfold strftime_Ymd_HMS, compare_seconds.
  rewrite <- (append_empty_r (pad2 (second d1))), <- (append_empty_r (pad2 (second d2))).
  rewrite compare_pad4, !compare_pad2 by lia.
  rewrite (compare_same_prefix "_"), !compare_pad2 by lia.
  cbn [String.compare]. by destruct (second d1 ?= second d2)%Z.
Qed.

(** X4. The names that the versioning stage gives to one path sort, as
    strings, in the order of the clock readings they were made from, to
    the second: the timestamp is written from the year down with fields
    of fixed width, so the comparison of two names is the comparison of
    the two readings, and so is that of the two timestamps. *)
Theorem versioned_names_sort_by_time (apk_path : string) (d1 d2 : datetime) :
  valid_datetime d1 → valid_datetime d2 →
  String.compare (strftime_Ymd_HMS d1) (strftime_Ymd_HMS d2) = compare_seconds d1 d2
  ∧ String.compare (new_filename_of apk_path d1) (new_filename_of apk_path d2)
    = compare_seconds d1 d2.
Proof.
  intros Hv1 Hv2. split; [by apply strftime_compare|].
  unfold new_filename_of.
  rewrite compare_same_prefix, (compare_same_prefix "_").
  rewrite compare_same_suffix by (by rewrite !strftime_eq).
  by apply strftime_compare.
Qed.

Lemma versioned_names_sort_by_time_witness :
  String.compare
    (new_filename_of "build/app/outputs/flutter-apk/app-release.apk" Sample.reading)
    (new_filename_of "build/app/outputs/flutter-apk/app-release.apk"
       (mkdatetime 2026 11 4 10 0 0 0))
  = Lt.
Proof.
  rewrite (proj2 (versioned_names_sort_by_time
                    "build/app/outputs/flutter-apk/app-release.apk" Sample.reading
                    (mkdatetime 2026 11 4 10 0 0 0)
                    ltac:(vm_compute; repeat split; congruence)
                    ltac:(vm_compute; repeat split; congruence))).
  reflexivity.
Defined.

(** ** The runs of [main], path by path *)

Section Outcome.
Context (env : Env).

Lemma first_glob_reports pats w :
  ∃ tr, first_glob pats w
        = (Ok (head (mjoin (fs_glob (fs w) <$> pats))),
           {| fs := fs w; trace := trace w ++ tr |})
        ∧ Forall (λ e, is_discovery e = true) tr
        ∧ ∀ p, head (mjoin (fs_glob (fs w) <$> pats)) = Some p →
               ∃ pattern files, EvGlob pattern (p :: files) ∈ tr.
Proof.
  revert w. induction pats as [|pat pats IH]; intros w.
  - exists []. destruct w. simpl. unfold_M. by rewrite app_nil_r.
  - simpl. unfold_M. unfold glob_glob. simpl.
    destruct (fs_glob (fs w) pat) as [|f fl] eqn:Hg.
    + destruct (IH {| fs := fs w; trace := trace w ++ [EvGlob pat []] |})
        as (tr & -> & Htr & Hrep).
      exists (EvGlob pat [] :: tr). simpl. rewrite <- app_assoc. split_and!.
      * done.
      * by constructor.
      * intros p Hp. destruct (Hrep p Hp) as (pattern & files & Hin).
        exists pattern, files. by apply list_elem_of_further.
    + exists [EvGlob pat (f :: fl)]. split_and!.
      * done.
      * by repeat constructor.
      * intros p [= <-]. exists pat, fl. apply list_elem_of_here.
Qed.

(** What discovery returns is a package on disk that one of its queries
    reported. *)
Lemma find_apk_file_outcome bt w :
  bt = "debug" ∨ bt = "release" →
  ∃ found queries,
    find_apk_file bt w = (Ok found, {| fs := fs w; trace := trace w ++ queries |})
    ∧ Forall (λ e, is_discovery e = true) queries
    ∧ (fs_exists (fs w) (exact_pattern bt) = true → found = Some (exact_pattern bt))
    ∧ ∀ p, found = Some p →
        falsy found = false
        ∧ (∃ content, fs_lookup (fs w) p = Some content)
        ∧ (∃ dir stem, package_path p dir stem)
        ∧ (EvPathExists p true ∈ queries
           ∨ ∃ pattern files, EvGlob pattern (p :: files) ∈ queries).
Proof.
  intros Hbt.
  assert (∃ found queries,
    find_apk_file bt w = (Ok found, {| fs := fs w; trace := trace w ++ queries |})
    ∧ Forall (λ e, is_discovery e = true) queries
    ∧ (fs_exists (fs w) (exact_pattern bt) = true → found = Some (exact_pattern bt))
    ∧ ∀ p, found = Some p →
        EvPathExists p true ∈ queries
        ∨ ∃ pattern files, EvGlob pattern (p :: files) ∈ queries)
    as (found & queries & Heq & Hq & Hexact & Hrep).
  { unfold find_apk_file. unfold_M. unfold Path_exists.
    assert (PurePath.to_string (PurePath.parse (exact_pattern bt)) = exact_pattern bt) as ->.
    { by destruct Hbt as [-> | ->]. }
    cbv beta zeta. destruct (fs_exists (fs w) (exact_pattern bt)) eqn:Hex.
    - eexists _, [_]. split_and!; [done | by repeat constructor | done |].
      intros p [= <-]. left. apply list_elem_of_here.
    - destruct (first_glob_reports (alt_patterns bt)
        {| fs := fs w; trace := trace w ++ [EvPathExists (exact_pattern bt) false] |})
        as (tr & Heq & Htr & Hrep).
      cbn [fs trace] in Heq, Hrep. rewrite Heq.
      eexists _, (EvPathExists (exact_pattern bt) false :: tr).
      rewrite <- app_assoc. split_and!; [done | by constructor | done |].
      intros p Hp. right. destruct (Hrep p Hp) as (pattern & files & Hin).
      exists pattern, files. by apply list_elem_of_further. }
  exists found, queries. split_and!; [done..|].
  intros p ->. destruct (discovered_package bt w _ p Hbt Heq) as [Hex (dir & stem & Hp)].
  split_and!.
  - destruct (package_path_parse _ _ _ Hp) as (-> & _).
    pose proof Hp as (Hdir & _). destruct (output_dirs_facts dir Hdir) as (Hnil & Hne & _).
    destruct dir as [|x dir]; [done|]. apply Forall_cons in Hne as [[Hx _] _].
    destruct x as [|c x]; [done|]. by destruct dir.
  - unfold fs_exists in Hex. destruct (fs_lookup (fs w) p); [eauto|done].
  - eauto.
  - by apply Hrep.
Qed.

(** The versioning of a package that is on disk. *)
Lemma rename_package_run apk_path build_type w dir stem content :
  package_path apk_path dir stem →
  fs_lookup (fs w) apk_path = Some content →
  ∃ d new_filename new_path line fs',
    d = now env (trace w)
    ∧ new_filename = stem +:+ "_" +:+ strftime_Ymd_HMS d +:+ ".apk"
    ∧ new_path = Str.join "/" dir +:+ "/" +:+ new_filename
    ∧ os_path_basename new_path = new_filename
    ∧ new_path ≠ apk_path
    ∧ fs_rename apk_path new_path (fs w) = Some fs'
    ∧ rename_apk_with_version env apk_path build_type w
      = (Ok new_path,
         {| fs := fs';
            trace := trace w ++ [EvNow d; EvMove apk_path new_path; EvPrint line] |}).
Proof.
  intros Hp Hcontent.
  destruct (rename_package env apk_path build_type w dir stem content Hp Hcontent)
    as (_ & Hp2 & Hne & fs' & Hren & Hrun).
  eexists _, _, _, _, fs'. split_and!; [done | done | done | | done | done | exact Hrun].
  unfold os_path_basename. destruct Hp2 as (_ & _ & ->).
  rewrite List.last_last. by rewrite !append_assoc.
Qed.

End Outcome.

Ltac step_found H :=
  match type of H with
  | context [find_apk_file ?bt ?w] =>
      let found := fresh "found" in
      let tr := fresh "queries" in let Heq := fresh "Hfind" in
      let Htr := fresh "Hqueries" in let Hfound := fresh "Hfound" in
      let Hexact := fresh "Hexact" in
      destruct (find_apk_file_outcome bt w) as (found & tr & Heq & Htr & Hexact & Hfound);
      [by (left + right)|];
      rewrite Heq in H; clear Heq; simpl in H;
      let p := fresh "p" in
      destruct found as [p|];
      [ let Hf := fresh "Hf" in let content := fresh "content" in
        let dir := fresh "dir" in let stem := fresh "stem" in
        let Hc := fresh "Hcontent" in let Hp := fresh "Hpackage" in
        let Hr := fresh "Hreported" in
        destruct (Hfound p eq_refl) as (Hf & (content & Hc) & (dir & stem & Hp) & Hr);
        clear Hfound; rewrite Hf in H; clear Hf; cbn [fs trace] in Hc, Hexact
      | clear Hfound; unfold falsy in H; cbn [fs trace] in Hexact ];
      simpl in H
  end.

Ltac step_versioned H :=
  unfold deliver, send_apk_via_tailscale, os_path_getsize in H; unfold_M; simpl in H;
  match goal with
  | Hc : fs_lookup _ ?p = Some ?content, Hp : package_path ?p ?dir ?stem |- _ =>
      rewrite Hc in H; simpl in H;
      match type of H with
      | context [rename_apk_with_version ?env p ?bt ?w] =>
          let d := fresh "d" in let nf := fresh "new_filename" in
          let np := fresh "new_path" in let line := fresh "line" in
          let fs' := fresh "renamed" in
          let Hd := fresh "Hd" in let Hnf := fresh "Hnew_filename" in
          let Hnp := fresh "Hnew_path" in let Hb := fresh "Hbasename" in
          let Hne := fresh "Hdistinct" in let Hren := fresh "Hrename" in
          let Heq := fresh "Heq" in
          destruct (rename_package_run env p bt w dir stem content Hp Hc)
            as (d & nf & np & line & fs' & Hd & Hnf & Hnp & Hb & Hne & Hren & Heq);
          rewrite Heq in H; clear Heq Hd; cbn [fs trace] in Hren; simpl in H;
          step_run_command H
      end
  end.

(** Every path of a run [H : main env argv (init_world fs0) = (r, w)], with
    what is known of the package on the paths where discovery found one. *)
Ltac main_cases H :=
  unfold main, build_phase, parse_args, check_project_directory, build_stage in H;
  unfold_M; unfold os_path_exists in H;
  let Hparse := fresh "Hparse" in
  destruct (parse_known_args _ _ _) as [[[] ?]| |] eqn:Hparse;
  simpl in H;
  [ let Hm := fresh "Hmarker" in
    destruct (fs_exists _ "pubspec.yaml") eqn:Hm; simpl in H;
      [ step_run_command H;
        [ step_run_command H;
          [ step_run_command H;
            [ step_found H; [ step_versioned H | ] | | ] | | ] | | ] | ]
  | let Hm := fresh "Hmarker" in
    destruct (fs_exists _ "pubspec.yaml") eqn:Hm; simpl in H;
      [ step_run_command H;
        [ step_run_command H;
          [ step_run_command H;
            [ step_found H; [ step_versioned H | ] | | ] | | ] | | ] | ]
  | | ];
  apply pair_equal_spec in H; destruct H as [<- <-]; cbn [fs trace] in *.

(** What the outcome of the parser says of the command line. *)
Ltac parsed_facts :=
  match goal with
  | Hp : parse_known_args _ _ _ = Accepted _ |- _ =>
      let Hwf := fresh "Hwf" in let Hargs := fresh "Hargs" in
      let Hdebug := fresh "Hdebug" in let Hrelease := fresh "Hrelease" in
      pose proof Hp as Hargs;
      apply parse_known_args_well_formed in Hargs as [Hwf Hargs];
      injection Hargs as Hdebug Hrelease; symmetry in Hdebug
  | Hp : parse_known_args _ _ _ = HelpRequested |- _ =>
      let Hhelp := fresh "Hhelp" in
      pose proof (parse_known_args_help _ _ _ Hp) as Hhelp
  | Hp : parse_known_args ?argv _ _ = UsageError _ |- _ =>
      let Hwf := fresh "Hwf" in
      assert (¬ well_formed argv) as Hwf
        by (intros Hwf;
            pose proof (proj2 (parse_known_args_well_formed argv _) (conj Hwf eq_refl));
            congruence)
  end.

Lemma last_app_some {A} (l k : list A) x : last k = Some x → last (l ++ k) = Some x.
Proof. intros H. by rewrite last_app, H. Qed.

Lemma last_cons_some {A} (e : A) (k : list A) x : last k = Some x → last (e :: k) = Some x.
Proof. intros H. destruct k; [done|]. by rewrite last_cons, H. Qed.

Ltac last_event :=
  first [ reflexivity
        | apply last_app_some; last_event
        | apply last_cons_some; last_event ].

Lemma spawn_log_queries (l : list event) :
  Forall (λ e, is_discovery e = true) l → spawn_log l = [].
Proof. induction 1 as [|e l He _ IH]; [done|]. by destruct e. Qed.

Lemma spawn_log_skip e (l : list event) :
  is_spawn e = false → spawn_log (e :: l) = spawn_log l.
Proof. by destruct e. Qed.

Ltac spawn_log_all :=
  unfold spawned; rewrite <- ?app_assoc; cbn [app];
  repeat first
    [ rewrite spawn_log_spawn
    | rewrite spawn_log_skip by reflexivity
    | rewrite spawn_log_app
    | rewrite spawn_log_announce
    | rewrite spawn_log_echo
    | rewrite spawn_log_diagnostic
    | rewrite spawn_log_queries by assumption ];
  cbn [app].

Ltac find_elem :=
  first [ apply list_elem_of_here
        | assumption
        | apply list_elem_of_further; find_elem
        | apply elem_of_app; right; find_elem
        | apply elem_of_app; left; find_elem ].

Section Runs.
Context (env : Env).

(** X5. A run of [main] leaves with status 0, 1 or 2.  Status 2 is that of
    a command line that the parser rejects, and of nothing else: a
    well-formed command line never gives it, and a command line that is
    not well formed always does, unless the help flag is on it.  Status 0
    is that of a run that reached its end, or of the help of the parser.
    The error of a failed command never leaves [main] as such. *)
Theorem main_exit_status (argv : list flag) (fs0 : filesystem)
    (r : result unit) (w : World) :
  main env argv (init_world fs0) = (r, w) →
  (exit_status r = 0%Z ∨ exit_status r = 1%Z ∨ exit_status r = 2%Z)
  ∧ (exit_status r = 2%Z
     ↔ ∃ message,
         parse_known_args argv {| debug := false; release := false |} []
         = UsageError message)
  ∧ (exit_status r = 0%Z
     ↔ r = Ok tt
       ∨ parse_known_args argv {| debug := false; release := false |} []
         = HelpRequested)
  ∧ (well_formed argv → exit_status r ≠ 2%Z)
  ∧ (¬ well_formed argv → FlagHelp ∉ argv → exit_status r = 2%Z)
  ∧ ∀ cmd rc out err, r ≠ Raised (CalledProcessError cmd rc out err).
Proof.
  intros H. main_cases H.
  all: parsed_facts; cbn [exit_status].
  all: split_and!; try done; auto.
  all: try (split; [done | by intros [message Hm]]).
  all: try (split; [done | by intros [Hr | Hp]]).
  all: try (split; [by left | done]).
  all: try (split; [by right | done]).
  all: try (split; [by eexists | done]).
Qed.

(** X6. A run of [main] returns normally exactly when its transfer command
    returned a result with status zero; and it leaves with status 0 then
    and, besides that, only after the help of the parser.  A run that
    returned normally had an accepted command line and the project marker;
    it started four commands, clean, fetch, the build of the selected
    variant and the transfer, each of which returned a result with status
    zero; it moved a package to its versioned name, sent the file under
    that name, and its last line is the summary that names the versioned
    file and the target device. *)
Theorem main_success (argv : list flag) (fs0 : filesystem)
    (r : result unit) (w : World) :
  main env argv (init_world fs0) = (r, w) →
  (r = Ok tt
   ↔ ∃ q cp, EvSpawn (ts_cmd q TARGET_DEVICE_NAME) (Some cp) ∈ trace w
             ∧ returncode cp = 0%Z)
  ∧ (exit_status r = 0%Z ↔ r = Ok tt ∨ (FlagHelp ∈ argv ∧ trace w = [EvHelp]))
  ∧ (r = Ok tt →
     ∃ p dir stem d r1 r2 r3 r4,
       let filename := stem +:+ "_" +:+ strftime_Ymd_HMS d +:+ ".apk" in
       let q := Str.join "/" dir +:+ "/" +:+ filename in
       well_formed argv
       ∧ fs_exists fs0 "pubspec.yaml" = true
       ∧ spawn_log (trace w)
         = [ (clean_cmd, Some r1); (pub_get_cmd, Some r2);
             (build_cmd (selected argv), Some r3);
             (ts_cmd q TARGET_DEVICE_NAME, Some r4) ]
       ∧ returncode r1 = 0%Z ∧ returncode r2 = 0%Z
       ∧ returncode r3 = 0%Z ∧ returncode r4 = 0%Z
       ∧ package_path p dir stem
       ∧ EvNow d ∈ trace w
       ∧ EvMove p q ∈ trace w
       ∧ last (trace w)
         = Some (EvPrint (success_summary TARGET_DEVICE_NAME filename))).
Proof.
  intros H. unfold selected. main_cases H.
  all: zero_status; parsed_facts; cbn [exit_status]; try rewrite Hdebug.
  all: split_and!;
    [ split;
      [ first [ discriminate
              | intros _; eexists _, _; split; [find_elem | eassumption] ]
      | first [ done
              | intros (q & cp & Hin & Hz);
                unfold ts_cmd, clean_cmd, pub_get_cmd, build_cmd in Hin; simpl in Hin;
                set_unfold in Hin; destruct_or!; simplify_eq; try done; try no_spawn ] ]
    | split;
      [ first [ discriminate
              | intros _; first [ by left | right; split; [assumption | reflexivity] ] ]
      | first [ done | by intros [Hr | [_ Htr]] ] ]
    | first [ discriminate | intros _ ] ].
  all: rewrite Hbasename; subst new_path new_filename.
  all: exists p, dir, stem, d, r0, r1, r2, r3; cbv zeta.
  all: split_and!; try assumption; try solve [find_elem].
  all: try (spawn_log_all; reflexivity).
  all: last_event.
Qed.

(** X7. The end-to-end scenario.  On an accepted command line, with the
    project marker in the working directory, commands that all end with
    status zero and a build command that leaves the package at the exact
    path of the variant, the run ends normally: it moves that package to
    its versioned name, and its last line is the summary with the name of
    the versioned file and of the target device. *)
Theorem main_end_to_end (argv : list flag) (fs0 : filesystem) :
  well_formed argv →
  fs_exists fs0 "pubspec.yaml" = true →
  (∀ h cmd disk, ∃ cp disk',
     spawn env h cmd disk = Some (cp, disk') ∧ returncode cp = 0%Z) →
  (∀ h disk cp disk',
     spawn env h (build_cmd (selected argv)) disk = Some (cp, disk') →
     fs_exists disk' (exact_pattern (selected argv)) = true) →
  ∃ w d,
    let filename :=
      "app-" +:+ selected argv +:+ "_" +:+ strftime_Ymd_HMS d +:+ ".apk" in
    main env argv (init_world fs0) = (Ok tt, w)
    ∧ EvNow d ∈ trace w
    ∧ EvMove (exact_pattern (selected argv))
        ("build/app/outputs/flutter-apk/" +:+ filename) ∈ trace w
    ∧ last (trace w) = Some (EvPrint (success_summary TARGET_DEVICE_NAME filename)).
Proof.
  intros Hargv Hmark Hzero Hbuild.
  destruct (main env argv (init_world fs0)) as [r w] eqn:H.
  unfold selected in *. main_cases H.
  all: parsed_facts; try contradiction.
  all: try (exfalso; destruct Hargv as [Hall _];
            eapply Forall_forall in Hall; [|exact Hhelp]; by destruct Hall).
  all: try congruence.
  all: rewrite Hdebug in *; simpl in Hbuild.
  all: try match goal with
         | Hs : spawn env ?h (build_cmd _) ?f = Some _ |- _ =>
             pose proof (Hbuild h f _ _ Hs) as Hthere
         end.
  all: zero_status.
  all: repeat match goal with
         | Hs : spawn env ?h ?c ?f = _ |- _ =>
             let Heq := fresh in let Hz := fresh in
             let Hcp := fresh in let Hdisk := fresh in
             destruct (Hzero h c f) as (? & ? & Heq & Hz);
             rewrite Heq in Hs; clear Heq; try discriminate Hs;
             injection Hs as Hcp Hdisk; rewrite Hcp in Hz; clear Hcp Hdisk;
             try contradiction
         end.
  all: specialize (Hexact Hthere); try discriminate Hexact.
  all: injection Hexact as ->.
  all: destruct Hpackage as (_ & _ & Hparts); vm_compute in Hparts.
  all: change (?a :: ?b :: ?c :: ?e :: [?f]) with ([a; b; c; e] ++ [f]) in Hparts.
  all: apply app_inj_tail in Hparts as [<- Hstem].
  all: match type of Hstem with
       | ?s = _ => first [ change s with ("app-debug" +:+ ".apk") in Hstem
                         | change s with ("app-release" +:+ ".apk") in Hstem ]
       end.
  all: apply append_inv_tail in Hstem as <-.
  all: rewrite Hbasename; subst new_path new_filename.
  all: eexists _, d; cbv zeta; split_and!;
    [ reflexivity | cbn [trace]; find_elem | cbn [trace]; find_elem
    | cbn [trace]; last_event ].
Qed.

(** X8. The commands that a run starts are, in this order, the clean, the
    fetch, the build of the variant that the command line selects, and the
    transfer to the target device: a run starts a prefix of that sequence,
    and none after a command that did not end with status zero. *)
Theorem main_command_sequence (argv : list flag) (fs0 : filesystem)
    (r : result unit) (w : World) :
  main env argv (init_world fs0) = (r, w) →
  ∃ q,
    spawned (trace w)
      `prefix_of` [ clean_cmd; pub_get_cmd; build_cmd (selected argv);
                    ts_cmd q TARGET_DEVICE_NAME ]
    ∧ spawn_log (trace w) = until_failure (spawn_log (trace w)).
Proof.
  intros H. unfold selected. main_cases H.
  all: parsed_facts; try rewrite Hdebug.
  all: first [ exists new_path | exists "" ].
  all: spawn_log_all; cbn [until_failure status_ok fmap list_fmap fst];
    repeat match goal with Hz : (_ =? 0)%Z = _ |- _ => rewrite Hz end.
  all: split; [|reflexivity].
  all: repeat apply prefix_cons; apply prefix_nil.
Qed.

(** X9. A command that cannot be started is the last event of the run: the
    error reaches the top of [main] with no diagnostic of the runner, and
    the interpreter leaves with status 1.  No other error than that one
    leaves a run uncaught: the size query and the move always find the
    file that discovery returned. *)
Theorem main_uncaught_error (argv : list flag) (fs0 : filesystem)
    (r : result unit) (w : World) :
  main env argv (init_world fs0) = (r, w) →
  (∀ cmd, EvSpawn cmd None ∈ trace w →
     r = Raised (OSError (List.hd "" cmd))
     ∧ exit_status r = 1%Z
     ∧ last (trace w) = Some (EvSpawn cmd None))
  ∧ (∀ filename, r = Raised (OSError filename) →
       ∃ cmd, filename = List.hd "" cmd ∧ last (trace w) = Some (EvSpawn cmd None)).
Proof.
  intros H. main_cases H.
  all: split;
    [ intros cmd Hin;
      unfold ts_cmd, clean_cmd, pub_get_cmd, build_cmd in *; simpl in Hin;
      set_unfold in Hin; destruct_or!; simplify_eq; try done; try no_spawn;
      split_and!; first [reflexivity | last_event]
    | intros filename Hr; try discriminate Hr;
      injection Hr as <-; eexists; (split; [|last_event]); reflexivity ].
Qed.

End Runs.

(** ** What holds of every command of a run *)

Lemma each_spawn_nil Q pre : each_spawn Q pre [].
Proof. intros before cmd o after Heq. by destruct before. Qed.

Lemma each_spawn_quiet Q pre l tr :
  Forall (λ e, is_spawn e = false) l →
  each_spawn Q (pre ++ l) tr → each_spawn Q pre (l ++ tr).
Proof.
  intros Hl Htr before cmd o after Heq.
  apply app_eq_inv in Heq as [(k & -> & Hk) | (k & -> & Hk)].
  - destruct k as [|e k].
    + specialize (Htr [] cmd o after). rewrite !app_nil_r in Htr.
      apply Htr. simpl in Hk. by symmetry.
    + simpl in Hk. injection Hk as <- _.
      apply Forall_app in Hl as [_ Hl]. apply Forall_cons in Hl as [Hl _]. done.
  - rewrite app_assoc. by eapply Htr.
Qed.

Lemma each_spawn_quiet_end Q pre l :
  Forall (λ e, is_spawn e = false) l → each_spawn Q pre l.
Proof.
  intros Hl. rewrite <- (app_nil_r l). apply each_spawn_quiet; [done|].
  apply each_spawn_nil.
Qed.

Lemma each_spawn_skip Q pre e tr :
  is_spawn e = false → each_spawn Q (pre ++ [e]) tr → each_spawn Q pre (e :: tr).
Proof.
  intros He Htr. change (e :: tr) with ([e] ++ tr).
  apply each_spawn_quiet; [by repeat constructor | done].
Qed.

Lemma each_spawn_here (Q : list event → list string → option CompletedProcess → Prop)
    pre cmd o tr :
  Q pre cmd o → each_spawn Q (pre ++ [EvSpawn cmd o]) tr →
  each_spawn Q pre (EvSpawn cmd o :: tr).
Proof.
  intros Hq Htr before c o' after Heq. destruct before as [|e before].
  - simpl in Heq. injection Heq as <- <- _. by rewrite app_nil_r.
  - simpl in Heq. injection Heq as <- Heq.
    change (pre ++ EvSpawn cmd o :: before) with (pre ++ [EvSpawn cmd o] ++ before).
    rewrite app_assoc. by eapply Htr.
Qed.

Lemma each_spawn_start (Q : list event → list string → option CompletedProcess → Prop) tr :
  each_spawn Q [] tr →
  ∀ before cmd o after, tr = before ++ EvSpawn cmd o :: after → Q before cmd o.
Proof. intros Htr before cmd o after Heq. by apply (Htr before cmd o after). Qed.

(** Walks along a trace; [here] proves the property at each command. *)
Ltac scan_spawns here :=
  rewrite <- ?app_assoc; cbn [app];
  repeat match goal with
         | |- each_spawn _ _ [] => apply each_spawn_nil
         | |- each_spawn _ _ (EvSpawn _ _ :: _) =>
             apply each_spawn_here; [ solve [here] | ]
         | |- each_spawn _ _ (_ :: _) => apply each_spawn_skip; [ reflexivity | ]
         | |- each_spawn _ _ (_ ++ _) =>
             apply each_spawn_quiet; [ solve [eauto with quiet] | ]
         | |- each_spawn _ _ _ =>
             apply each_spawn_quiet_end; solve [eauto with quiet]
         end.

Lemma in_order_app_l {A} (x y : A) (l k : list A) :
  (∃ h1 h2 h3, l = h1 ++ x :: h2 ++ y :: h3) →
  ∃ h1 h2 h3, l ++ k = h1 ++ x :: h2 ++ y :: h3.
Proof.
  intros (h1 & h2 & h3 & ->). exists h1, h2, (h3 ++ k).
  rewrite <- app_assoc. cbn [app]. by rewrite <- app_assoc.
Qed.

Lemma in_order_split {A} (x y : A) (l k : list A) :
  x ∈ l → y ∈ k → ∃ h1 h2 h3, l ++ k = h1 ++ x :: h2 ++ y :: h3.
Proof.
  intros (a & b & ->)%list_elem_of_split (c & d & ->)%list_elem_of_split.
  exists a, (b ++ c), d.
  rewrite <- app_assoc. cbn [app]. by rewrite <- app_assoc.
Qed.

Ltac in_order :=
  first [ apply in_order_split; [ solve [find_elem] | solve [find_elem] ]
        | apply in_order_app_l; in_order ].

Section Commands.
Context (env : Env).

(** X10. Every command of a run is announced: the two lines of the runner,
    the description and [Running:] with the words of the command, are the
    two events right before its start. *)
Theorem main_commands_announced (argv : list flag) (fs0 : filesystem)
    (r : result unit) (w : World) :
  main env argv (init_world fs0) = (r, w) →
  ∀ before cmd o after,
    trace w = before ++ EvSpawn cmd o :: after →
    ∃ description, announce description cmd `suffix_of` before.
Proof.
  intros H.
  apply (each_spawn_start (λ h cmd _, ∃ description, announce description cmd `suffix_of` h)).
  main_cases H.
  all: scan_spawns
         ltac:(eexists; unfold announce; rewrite <- ?app_assoc; cbn [app]; ends_with).
Qed.

(** X11. The transfer command is started on a versioned file only: its
    source is the name to which the run has moved, before, a file that a
    query of discovery had reported and whose size the run had read before
    the move; its destination is the target device. *)
Theorem transfer_follows_rename (argv : list flag) (fs0 : filesystem)
    (r : result unit) (w : World) :
  main env argv (init_world fs0) = (r, w) →
  ∀ before cmd o after,
    trace w = before ++ EvSpawn cmd o :: after →
    is_transfer (EvSpawn cmd o) = true →
    ∃ p q size,
      cmd = ts_cmd q TARGET_DEVICE_NAME
      ∧ q ≠ p
      ∧ EvMove p q ∈ before
      ∧ EvGetsize p size ∈ before
      ∧ (EvPathExists p true ∈ before
         ∨ ∃ pattern files, EvGlob pattern (p :: files) ∈ before)
      ∧ ∃ h1 h2 h3, before = h1 ++ EvGetsize p size :: h2 ++ EvMove p q :: h3.
Proof.
  intros H.
  apply (each_spawn_start (λ h cmd o,
    is_transfer (EvSpawn cmd o) = true →
    ∃ p q size,
      cmd = ts_cmd q TARGET_DEVICE_NAME
      ∧ q ≠ p
      ∧ EvMove p q ∈ h
      ∧ EvGetsize p size ∈ h
      ∧ (EvPathExists p true ∈ h
         ∨ ∃ pattern files, EvGlob pattern (p :: files) ∈ h)
      ∧ ∃ h1 h2 h3, h = h1 ++ EvGetsize p size :: h2 ++ EvMove p q :: h3)).
  main_cases H.
  all: scan_spawns
         ltac:(intros Ht; first
           [ discriminate Ht
           | match goal with
             | Hd : ?q ≠ ?p, Hr : _ ∨ _ |- _ =>
                 exists p, q; eexists; split_and!;
                 [ reflexivity | exact Hd | find_elem | find_elem
                 | destruct Hr as [Hr | (pattern & files & Hr)];
                   [ left; find_elem | right; exists pattern, files; find_elem ]
                 | in_order ]
             end ]).
Qed.

End Commands.

Lemma fs_rename_files src dst (fs0 fs1 : filesystem) :
  fs_rename src dst fs0 = Some fs1 →
  ∀ path, fs_exists fs1 path = true
          ↔ path = dst ∨ (path ≠ src ∧ fs_exists fs0 path = true).
Proof.
  intros (content & Hsrc & Hdst & Hgone & Hother)%fs_rename_spec path.
  unfold fs_exists.
  destruct (decide (path = dst)) as [-> | Hdst'].
  - rewrite Hdst. split; [by left | done].
  - destruct (decide (path = src)) as [-> | Hsrc'].
    + rewrite Hgone by done. split; [done | by intros [? | [? _]]].
    + rewrite Hother by done. split; [by right | by intros [? | [_ ?]]].
Qed.

Section Footprint.
Context (env : Env).

(** X12. With commands that write nothing, a run leaves the file system as
    it found it, or with the package moved to its versioned name: the old
    name is gone, the new name holds the content of the package, in place
    of any file that had that name before, and every other path is as
    before.  The files at the end are the new name and those of the start
    but for the old name.  So a file that already had the versioned name,
    an artifact of the same second, is lost; the script creates and
    deletes no other file. *)
Theorem main_only_moves (argv : list flag) (fs0 : filesystem)
    (r : result unit) (w : World) :
  main env argv (init_world fs0) = (r, w) →
  (∀ h cmd disk cp disk', spawn env h cmd disk = Some (cp, disk') → disk' = disk) →
  fs w = fs0
  ∨ ∃ p q content,
      EvMove p q ∈ trace w
      ∧ q ≠ p
      ∧ fs_lookup fs0 p = Some content
      ∧ fs_rename p q fs0 = Some (fs w)
      ∧ fs_lookup (fs w) q = Some content
      ∧ fs_lookup (fs w) p = None
      ∧ (∀ other, other ≠ p → other ≠ q →
           fs_lookup (fs w) other = fs_lookup fs0 other)
      ∧ (∀ path, fs_exists (fs w) path = true
                 ↔ path = q ∨ (path ≠ p ∧ fs_exists fs0 path = true)).
Proof.
  intros H Hidle. main_cases H.
  all: repeat match goal with
         | Hs : spawn env _ _ _ = Some _ |- _ => apply Hidle in Hs as ->
         end.
  all: first [ left; reflexivity | right ].
  all: pose proof (fs_rename_files _ _ _ _ Hrename) as Hfiles.
  all: destruct (fs_rename_spec _ _ _ _ Hrename) as (c & Hc & Hq & Hp & Hother).
  all: rewrite Hcontent in Hc; injection Hc as <-.
  all: exists p, new_path, content; split_and!;
    [ find_elem | done | done | done | done | by apply Hp | done | done ].
Qed.

End Footprint.

(** ** The runs of the sample worlds *)

Lemma main_exit_status_witness :
  exit_status (fst (main Sample.env_ok [FlagRelease] (init_world Sample.project))) ≠ 2%Z
  ∧ exit_status (fst (main Sample.env_ok [FlagRelease; Unrecognized "extra"]
                        (init_world Sample.project))) = 2%Z.
Proof.
  split.
  - destruct (main_exit_status Sample.env_ok [FlagRelease] Sample.project _ _
                (surjective_pairing _)) as (_ & _ & _ & Haccepted & _).
    apply Haccepted. unfold well_formed. split.
    + constructor; [by right | constructor].
    + right. split; by apply (bool_decide_unpack _).
  - destruct (main_exit_status Sample.env_ok [FlagRelease; Unrecognized "extra"]
                Sample.project _ _ (surjective_pairing _))
      as (_ & _ & _ & _ & Hrejected & _).
    apply Hrejected.
    + intros [Hall _]. apply Forall_cons in Hall as [_ Hall].
      apply Forall_cons in Hall as [[Hextra | Hextra] _]; discriminate.
    + by apply (bool_decide_unpack _).
Defined.

Lemma main_success_witness :
  fst (main Sample.env_ok [FlagRelease] (init_world Sample.project)) = Ok tt
  ↔ ∃ q cp,
      EvSpawn (ts_cmd q TARGET_DEVICE_NAME) (Some cp)
        ∈ trace (snd (main Sample.env_ok [FlagRelease] (init_world Sample.project)))
      ∧ returncode cp = 0%Z.
Proof.
  exact (proj1
    (main_success Sample.env_ok [FlagRelease] Sample.project _ _
       (surjective_pairing _))).
Defined.

Lemma main_end_to_end_witness :
  ∃ w d,
    main Sample.env_ok [FlagRelease] (init_world Sample.project) = (Ok tt, w)
    ∧ last (trace w)
      = Some (EvPrint (success_summary "asus"
                ("app-release_" +:+ strftime_Ymd_HMS d +:+ ".apk"))).
Proof.
  destruct (main_end_to_end Sample.env_ok [FlagRelease] Sample.project)
    as (w & d & Hrun & _ & _ & Hlast).
  - unfold well_formed. split; [constructor; [by right | constructor]|].
    right. split; by apply (bool_decide_unpack _).
  - by vm_compute.
  - intros h cmd disk. by eexists _, _.
  - intros h disk cp disk' [= <- <-]. apply fs_exists_elem.
    rewrite fmap_app. apply elem_of_app. right. apply list_elem_of_here.
  - exists w, d. split; [exact Hrun | exact Hlast].
Defined.

Lemma main_command_sequence_witness :
  ∃ q,
    spawned (trace (snd (main Sample.env_build_fails [FlagDebug]
                           (init_world Sample.project))))
      `prefix_of` [clean_cmd; pub_get_cmd; build_cmd "debug"; ts_cmd q "asus"].
Proof.
  destruct (main_command_sequence Sample.env_build_fails [FlagDebug] Sample.project
              _ _ (surjective_pairing _)) as (q & Hprefix & _).
  exists q. exact Hprefix.
Defined.

Lemma main_uncaught_error_witness :
  fst (main Scenario.env_no_tailscale [FlagRelease] (init_world Sample.project))
  = Raised (OSError "tailscale").
Proof.
  destruct (main_uncaught_error Scenario.env_no_tailscale [FlagRelease] Sample.project
              _ _ (surjective_pairing _)) as [Hnone _].
  apply (Hnone (ts_cmd "build/app/outputs/flutter-apk/app-release_20261104_090507.apk"
                  "asus")).
  elem_of_concrete.
Defined.

Lemma main_commands_announced_witness :
  ∃ description,
    announce description clean_cmd
      `suffix_of` take 4 (trace (snd (main Sample.env_clean_fails [FlagDebug]
                                        (init_world Sample.project)))).
Proof.
  eapply (main_commands_announced Sample.env_clean_fails [FlagDebug] Sample.project
            _ _ (surjective_pairing _) _ clean_cmd (Some Sample.failure)
            (drop 5 (trace (snd (main Sample.env_clean_fails [FlagDebug]
                                   (init_world Sample.project)))))).
  by vm_compute.
Defined.

Lemma transfer_follows_rename_witness :
  ∃ p q size,
    ts_cmd "build/app/outputs/flutter-apk/app-release_20261104_090507.apk" "asus"
    = ts_cmd q TARGET_DEVICE_NAME
    ∧ q ≠ p
    ∧ EvMove p q
        ∈ take 24 (trace (snd (main Sample.env_ok [FlagRelease]
                                 (init_world Sample.project))))
    ∧ EvGetsize p size
        ∈ take 24 (trace (snd (main Sample.env_ok [FlagRelease]
                                 (init_world Sample.project)))).
Proof.
  destruct (transfer_follows_rename Sample.env_ok [FlagRelease] Sample.project
              _ _ (surjective_pairing _)
              (take 24 (trace (snd (main Sample.env_ok [FlagRelease]
                                      (init_world Sample.project)))))
              (ts_cmd "build/app/outputs/flutter-apk/app-release_20261104_090507.apk"
                 "asus")
              (Some Sample.done)
              (drop 25 (trace (snd (main Sample.env_ok [FlagRelease]
                                      (init_world Sample.project))))))
    as (p & q & size & Hcmd & Hne & Hmove & Hsize & _).
  - by vm_compute.
  - reflexivity.
  - exists p, q, size. split_and!; assumption.
Defined.

Lemma main_only_moves_witness :
  fs_lookup Scenario.stale "build/app/outputs/flutter-apk/app-release_20261104_090507.apk"
  = Some "PK of an earlier run"
  ∧ (fs (snd (main Sample.env_idle [FlagRelease] (init_world Scenario.stale)))
     = Scenario.stale
     ∨ ∃ p q content,
         EvMove p q ∈ trace (snd (main Sample.env_idle [FlagRelease]
                                    (init_world Scenario.stale)))
         ∧ fs_lookup Scenario.stale p = Some content
         ∧ fs_lookup (fs (snd (main Sample.env_idle [FlagRelease]
                                 (init_world Scenario.stale)))) q = Some content).
Proof.
  split; [reflexivity|].
  destruct (main_only_moves Sample.env_idle [FlagRelease] Scenario.stale
              _ _ (surjective_pairing _))
    as [Hsame | (p & q & content & Hmove & _ & Hp & _ & Hq & _)].
  - by intros h cmd disk cp disk' [= _ <-].
  - by left.
  - right. exists p, q, content. split_and!; assumption.
Defined.

(** The run of the sample above: the package takes the name of the
    artifact of an earlier run of the same second, which is lost. *)
Example main_replaces_same_second :
  let w := snd (main Sample.env_idle [FlagRelease] (init_world Scenario.stale)) in
  exit_status (fst (main Sample.env_idle [FlagRelease] (init_world Scenario.stale)))
  = 0%Z
  ∧ (fs w).*1
    = [ "pubspec.yaml";
        "build/app/outputs/flutter-apk/app-release_20261104_090507.apk" ]
  ∧ fs_lookup (fs w) "build/app/outputs/flutter-apk/app-release_20261104_090507.apk"
    = Some "PK".
Proof. by vm_compute. Qed.
